(** * Baxter RSDK gripper action server: a shallow embedding

    Source: [baxter_interface/src/gripper_action/gripper_action.py],
    class [GripperActionServer].

    Python floats are IEEE 754 binary64 numbers: they are modelled by Rocq's
    primitive floats, so that [<], [>], [==], [-] and [fabs] are the
    hardware operations (comparisons with a NaN are false, literals are
    rounded to the nearest double as Python's parser does).

    The collaborators that are not part of the file (the [baxter_interface]
    gripper driver, the [actionlib] server, [rospy]'s clock and log) are the
    environment.  Every query to the environment is answered by a [World]:
    for each query method, the sequence of the answers it gives, indexed by
    the number of earlier calls of that method.  Any deterministic or
    non-deterministic driver gives rise to such sequences along one run, so a
    statement quantified over every [World] covers every behaviour of the
    hardware.  Every command sent to the environment is appended to a trace
    of [Event]s. *)

From Stdlib Require Import Floats.
From stdpp Require Import gmap strings list.

Set Warnings "-inexact-float".

Local Open Scope string_scope.
Local Open Scope list_scope.

(** ** Messages *)

(** [control_msgs/GripperCommand]: [goal.command]. *)
Record GripperCommand := {
  cmd_position : float;     (* command.position *)
  cmd_max_effort : float;   (* command.max_effort *)
}.

(** [control_msgs/GripperCommandGoal]. *)
Record GripperCommandGoal := { command : GripperCommand }.

(** [control_msgs/GripperCommandFeedback]; [GripperCommandResult] has the
    same four fields. *)
Record GripperCommandFeedback := {
  position : float;
  effort : float;
  stalled : bool;
  reached_goal : bool;
}.

(** A freshly constructed message: [GripperCommandFeedback()] and
    [GripperCommandResult()]. *)
Definition fresh_message : GripperCommandFeedback :=
  {| position := 0%float; effort := 0%float;
     stalled := false; reached_goal := false |}.

(** [self._result] is a reference.  The constructor binds it to a message of
    its own; [_update_feedback] rebinds it to the very object held in
    [self._feedback] (line 122), so that from then on both names denote one
    object. *)
Inductive ResultRef :=
| OwnResult        (* the GripperCommandResult() of line 67 *)
| SharesFeedback.  (* the object in self._feedback *)

(** ** The object *)

Record GripperActionServer := {
  _param : gmap string float;        (* self._param.config *)
  _ee : string;
  _ns : string;
  _action_name : string;
  _feedback : GripperCommandFeedback;
  _result : ResultRef;
  _type : string;
  _timeout : float;
  _default_effort : float;
  (* the four attributes below exist only when _type == 'electric'; the
     source reads them only under that same test *)
  _dead_band : float;
  _velocity : float;
  _moving_force : float;
  _holding_force : float;
}.

(** The message [self._result] denotes. *)
Definition result_message (s : GripperActionServer) : GripperCommandFeedback :=
  match _result s with
  | OwnResult => fresh_message
  | SharesFeedback => _feedback s
  end.

(** ** The environment *)

Record World := {
  w_name : string;                              (* rospy.get_name() *)
  w_type : string;                              (* gripper.type() *)
  w_error : nat -> bool;                        (* gripper.error() *)
  w_calibrated : nat -> bool;                   (* gripper.calibrated() *)
  w_position : nat -> float;                    (* gripper.position() *)
  w_force : nat -> float;                       (* gripper.force() *)
  w_parameters : nat -> gmap string float;      (* gripper.parameters() *)
  w_gripping : nat -> bool;                     (* gripper.gripping() *)
  w_preempt : nat -> bool;                      (* server.is_preempt_requested() *)
  w_time : nat -> float;                        (* rospy.get_time() *)
}.

(** How many times each query has been made so far. *)
Record Calls := {
  n_error : nat;
  n_calibrated : nat;
  n_position : nat;
  n_force : nat;
  n_parameters : nat;
  n_gripping : nat;
  n_preempt : nat;
  n_time : nat;
}.

Definition no_calls : Calls :=
  {| n_error := 0; n_calibrated := 0; n_position := 0; n_force := 0;
     n_parameters := 0; n_gripping := 0; n_preempt := 0; n_time := 0 |}.

(** The commands the code sends to its collaborators. *)
Inductive Event :=
| RospySleep (seconds : float)                   (* rospy.sleep *)
| ServerStart                                    (* server.start() *)
| GripperReboot                                  (* gripper.reboot() *)
| GripperCalibrate                               (* gripper.calibrate() *)
| SetParameters (p : gmap string float)          (* gripper.set_parameters *)
| SetMovingForce (f : float)                     (* gripper.set_moving_force *)
| CommandPosition (p : float) (block : bool)     (* gripper.command_position *)
| Stop                                           (* gripper.stop() *)
| PublishFeedback (f : GripperCommandFeedback)   (* server.publish_feedback *)
| SetSucceeded (r : GripperCommandFeedback)      (* server.set_succeeded *)
| SetAborted (r : option GripperCommandFeedback) (* server.set_aborted *)
| LogErr (msg : string)                          (* rospy.logerr *)
| LogInfo (msg : string)                         (* rospy.loginfo *)
| RateSleep (hz : float).                        (* rospy.Rate(hz).sleep() *)

(** ** Machine state and the monad of the embedding *)

Record State := {
  self : GripperActionServer;
  calls : Calls;
  trace : list Event;    (* oldest first *)
}.

Inductive Exn := KeyError (key : string).

(** [Ok]: normal completion.  [Raised]: a Python exception propagates.
    [Running]: the loop was still going when the fuel ran out. *)
Inductive Res (A : Type) :=
| Ok (a : A) (st : State)
| Raised (e : Exn) (st : State)
| Running (st : State).
Arguments Ok {A} a st.
Arguments Raised {A} e st.
Arguments Running {A} st.

Definition M (A : Type) : Type := State -> Res A.

Definition ret {A} (a : A) : M A := fun st => Ok a st.

Definition bind {A B} (m : M A) (k : A -> M B) : M B := fun st =>
  match m st with
  | Ok a st' => k a st'
  | Raised e st' => Raised e st'
  | Running st' => Running st'
  end.

Declare Scope py_scope.
Delimit Scope py_scope with py.
Notation "'let*' x ':=' m 'in' k" := (bind m (fun x => k))
  (at level 10, x name, m at level 100, k at level 200) : py_scope.
Notation "m ';;' k" := (bind m (fun _ => k))
  (at level 100, k at level 200, right associativity) : py_scope.
Local Open Scope py_scope.

Definition raise {A} (e : Exn) : M A := fun st => Raised e st.
Definition out_of_fuel {A} : M A := fun st => Running st.

Definition get {A} (f : GripperActionServer -> A) : M A :=
  fun st => Ok (f (self st)) st.

Definition modify (f : GripperActionServer -> GripperActionServer) : M unit :=
  fun st => Ok tt {| self := f (self st); calls := calls st; trace := trace st |}.

(** The state once the commands [evs] have been sent. *)
Definition send (evs : list Event) (st : State) : State :=
  {| self := self st; calls := calls st; trace := trace st ++ evs |}.

Definition emit (e : Event) : M unit := fun st => Ok tt (send [e] st).

(** [d[k]] on a Python dict. *)
Definition subscript (d : gmap string float) (k : string) : M float :=
  match d !! k with
  | Some v => ret v
  | None => raise (KeyError k)
  end.

(** *** Attribute assignment [self.x = v] *)

Definition set_feedback (v : GripperCommandFeedback) (s : GripperActionServer) :=
  {| _param := _param s; _ee := _ee s; _ns := _ns s;
     _action_name := _action_name s; _feedback := v; _result := _result s;
     _type := _type s; _timeout := _timeout s;
     _default_effort := _default_effort s; _dead_band := _dead_band s;
     _velocity := _velocity s; _moving_force := _moving_force s;
     _holding_force := _holding_force s |}.

Definition set_result (v : ResultRef) (s : GripperActionServer) :=
  {| _param := _param s; _ee := _ee s; _ns := _ns s;
     _action_name := _action_name s; _feedback := _feedback s; _result := v;
     _type := _type s; _timeout := _timeout s;
     _default_effort := _default_effort s; _dead_band := _dead_band s;
     _velocity := _velocity s; _moving_force := _moving_force s;
     _holding_force := _holding_force s |}.

Definition set_timeout (v : float) (s : GripperActionServer) :=
  {| _param := _param s; _ee := _ee s; _ns := _ns s;
     _action_name := _action_name s; _feedback := _feedback s;
     _result := _result s; _type := _type s; _timeout := v;
     _default_effort := _default_effort s; _dead_band := _dead_band s;
     _velocity := _velocity s; _moving_force := _moving_force s;
     _holding_force := _holding_force s |}.

Definition set_dead_band (v : float) (s : GripperActionServer) :=
  {| _param := _param s; _ee := _ee s; _ns := _ns s;
     _action_name := _action_name s; _feedback := _feedback s;
     _result := _result s; _type := _type s; _timeout := _timeout s;
     _default_effort := _default_effort s; _dead_band := v;
     _velocity := _velocity s; _moving_force := _moving_force s;
     _holding_force := _holding_force s |}.

Definition set_velocity (v : float) (s : GripperActionServer) :=
  {| _param := _param s; _ee := _ee s; _ns := _ns s;
     _action_name := _action_name s; _feedback := _feedback s;
     _result := _result s; _type := _type s; _timeout := _timeout s;
     _default_effort := _default_effort s; _dead_band := _dead_band s;
     _velocity := v; _moving_force := _moving_force s;
     _holding_force := _holding_force s |}.

Definition set_moving_force (v : float) (s : GripperActionServer) :=
  {| _param := _param s; _ee := _ee s; _ns := _ns s;
     _action_name := _action_name s; _feedback := _feedback s;
     _result := _result s; _type := _type s; _timeout := _timeout s;
     _default_effort := _default_effort s; _dead_band := _dead_band s;
     _velocity := _velocity s; _moving_force := v;
     _holding_force := _holding_force s |}.

Definition set_holding_force (v : float) (s : GripperActionServer) :=
  {| _param := _param s; _ee := _ee s; _ns := _ns s;
     _action_name := _action_name s; _feedback := _feedback s;
     _result := _result s; _type := _type s; _timeout := _timeout s;
     _default_effort := _default_effort s; _dead_band := _dead_band s;
     _velocity := _velocity s; _moving_force := _moving_force s;
     _holding_force := v |}.

(** Field assignment on the message object held in [self._feedback]:
    [self._feedback.position = v] and the like. *)
Definition feedback_set_position (v : float) (s : GripperActionServer) :=
  set_feedback {| position := v; effort := effort (_feedback s);
                  stalled := stalled (_feedback s);
                  reached_goal := reached_goal (_feedback s) |} s.

Definition feedback_set_effort (v : float) (s : GripperActionServer) :=
  set_feedback {| position := position (_feedback s); effort := v;
                  stalled := stalled (_feedback s);
                  reached_goal := reached_goal (_feedback s) |} s.

Definition feedback_set_stalled (v : bool) (s : GripperActionServer) :=
  set_feedback {| position := position (_feedback s);
                  effort := effort (_feedback s); stalled := v;
                  reached_goal := reached_goal (_feedback s) |} s.

Definition feedback_set_reached_goal (v : bool) (s : GripperActionServer) :=
  set_feedback {| position := position (_feedback s);
                  effort := effort (_feedback s);
                  stalled := stalled (_feedback s); reached_goal := v |} s.

(** *** Queries to the collaborators

    Each query returns the world's next answer for that method and counts
    the call. *)

Section Program.

Variable w : World.

Definition with_calls (c : Calls) (st : State) : State :=
  {| self := self st; calls := c; trace := trace st |}.

Definition gripper_error : M bool := fun st =>
  let c := calls st in
  Ok (w_error w (n_error c))
     (with_calls {| n_error := S (n_error c); n_calibrated := n_calibrated c;
                    n_position := n_position c; n_force := n_force c;
                    n_parameters := n_parameters c;
                    n_gripping := n_gripping c; n_preempt := n_preempt c;
                    n_time := n_time c |} st).

Definition gripper_calibrated : M bool := fun st =>
  let c := calls st in
  Ok (w_calibrated w (n_calibrated c))
     (with_calls {| n_error := n_error c; n_calibrated := S (n_calibrated c);
                    n_position := n_position c; n_force := n_force c;
                    n_parameters := n_parameters c;
                    n_gripping := n_gripping c; n_preempt := n_preempt c;
                    n_time := n_time c |} st).

Definition gripper_position : M float := fun st =>
  let c := calls st in
  Ok (w_position w (n_position c))
     (with_calls {| n_error := n_error c; n_calibrated := n_calibrated c;
                    n_position := S (n_position c); n_force := n_force c;
                    n_parameters := n_parameters c;
                    n_gripping := n_gripping c; n_preempt := n_preempt c;
                    n_time := n_time c |} st).

Definition gripper_force : M float := fun st =>
  let c := calls st in
  Ok (w_force w (n_force c))
     (with_calls {| n_error := n_error c; n_calibrated := n_calibrated c;
                    n_position := n_position c; n_force := S (n_force c);
                    n_parameters := n_parameters c;
                    n_gripping := n_gripping c; n_preempt := n_preempt c;
                    n_time := n_time c |} st).

Definition gripper_parameters : M (gmap string float) := fun st =>
  let c := calls st in
  Ok (w_parameters w (n_parameters c))
     (with_calls {| n_error := n_error c; n_calibrated := n_calibrated c;
                    n_position := n_position c; n_force := n_force c;
                    n_parameters := S (n_parameters c);
                    n_gripping := n_gripping c; n_preempt := n_preempt c;
                    n_time := n_time c |} st).

Definition gripper_gripping : M bool := fun st =>
  let c := calls st in
  Ok (w_gripping w (n_gripping c))
     (with_calls {| n_error := n_error c; n_calibrated := n_calibrated c;
                    n_position := n_position c; n_force := n_force c;
                    n_parameters := n_parameters c;
                    n_gripping := S (n_gripping c); n_preempt := n_preempt c;
                    n_time := n_time c |} st).

Definition is_preempt_requested : M bool := fun st =>
  let c := calls st in
  Ok (w_preempt w (n_preempt c))
     (with_calls {| n_error := n_error c; n_calibrated := n_calibrated c;
                    n_position := n_position c; n_force := n_force c;
                    n_parameters := n_parameters c;
                    n_gripping := n_gripping c; n_preempt := S (n_preempt c);
                    n_time := n_time c |} st).

Definition get_time : M float := fun st =>
  let c := calls st in
  Ok (w_time w (n_time c))
     (with_calls {| n_error := n_error c; n_calibrated := n_calibrated c;
                    n_position := n_position c; n_force := n_force c;
                    n_parameters := n_parameters c;
                    n_gripping := n_gripping c; n_preempt := n_preempt c;
                    n_time := S (n_time c) |} st).

(** ** The methods of [GripperActionServer] *)

(** The object before [__init__] has run: no attribute is set yet; the
    values below stand for absent attributes and are never read. *)
Definition blank_object : GripperActionServer :=
  {| _param := ∅; _ee := ""; _ns := ""; _action_name := "";
     _feedback := fresh_message; _result := OwnResult; _type := "";
     _timeout := 0%float; _default_effort := 0%float; _dead_band := 0%float;
     _velocity := 0%float; _moving_force := 0%float;
     _holding_force := 0%float |}.

(** Lines 48-89.  The attributes are assigned in the source's order; an
    exception leaves no object behind, so the record is stored in one step
    once the last statement is reached. *)
Definition __init__ (gripper : string) (parameters : gmap string float)
  : M unit :=
  let ee := gripper +:+ "_gripper" in
  let ns := "robot/end_effector/" +:+ ee +:+ "/gripper_action" in
  emit (RospySleep 0.25%float);;
  let action_name := w_name w in
  emit ServerStart;;
  let type := w_type w in
  let* err := gripper_error in
  (if err then emit GripperReboot else ret tt);;
  let* cal := gripper_calibrated in
  (if negb cal then emit GripperCalibrate else ret tt);;
  let* init_params := gripper_parameters in
  let obj :=
    {| _param := parameters; _ee := ee; _ns := ns;
       _action_name := action_name; _feedback := fresh_message;
       _result := OwnResult; _type := type; _timeout := 5.0%float;
       _default_effort := 40.0%float; _dead_band := 0%float;
       _velocity := 0%float; _moving_force := 0%float;
       _holding_force := 0%float |} in
  if String.eqb type "electric" then
    let* d := subscript init_params "dead_zone" in
    let* v := subscript init_params "velocity" in
    let* m := subscript init_params "moving_force" in
    let* h := subscript init_params "holding_force" in
    modify (fun _ => set_holding_force h (set_moving_force m
                       (set_velocity v (set_dead_band d obj))))
  else
    modify (fun _ => obj).

(** Lines 91-103. *)
Definition _get_gripper_parameters : M unit :=
  let* ee := get _ee in
  let* cfg := get _param in
  let* t := subscript cfg (ee +:+ "_timeout") in
  modify (set_timeout t);;
  let* type := get _type in
  if String.eqb type "electric" then
    let* d := subscript cfg (ee +:+ "_goal") in
    modify (set_dead_band d);;
    let* v := subscript cfg (ee +:+ "_velocity") in
    modify (set_velocity v);;
    let* m := subscript cfg (ee +:+ "_moving_force") in
    modify (set_moving_force m);;
    let* h := subscript cfg (ee +:+ "_holding_force") in
    modify (set_holding_force h);;
    let param_update : gmap string float :=
      <["dead_zone" := d]> (<["velocity" := v]>
        (<["moving_force" := m]> (<["holding_force" := h]> ∅))) in
    emit (SetParameters param_update)
  else
    ret tt.

(** Lines 112-122.  [position] is the goal's target position. *)
Definition _update_feedback (position : float) : M unit :=
  let* p := gripper_position in
  modify (feedback_set_position p);;
  let* f := gripper_force in
  modify (feedback_set_effort f);;
  let* f' := gripper_force in
  let* params := gripper_parameters in
  let* mf := subscript params "moving_force" in
  modify (feedback_set_stalled (mf <? f')%float);;
  let* type := get _type in
  (if String.eqb type "electric" then
     let* p' := gripper_position in
     let* dead_band := get _dead_band in
     modify (feedback_set_reached_goal
               (PrimFloat.abs (p' - position) <? dead_band)%float)
   else ret tt);;
  (if String.eqb type "suction" then
     let* _g := gripper_gripping in   (* the value is dropped *)
     ret tt
   else ret tt);;
  modify (set_result SharesFeedback).

(** Lines 127-132: the effort the goal is executed with. *)
Definition effective_effort (s : GripperActionServer) (max_effort : float)
  : float :=
  let effort := max_effort in
  let effort :=
    if (PrimFloat.abs effort <? 0.0001)%float then _default_effort s
    else effort in
  let effort := if (effort =? -1.0)%float then 100.0%float else effort in
  effort.

(** Lines 156-157. *)
Definition now_from_start (start : float) : M float :=
  let* t := get_time in ret (t - start)%float.

(** Lines 159-166.  [None] is Python's [None], what a function returns when
    it falls off its end. *)
Definition check_state (position : float) : M (option bool) :=
  let* type := get _type in
  if String.eqb type "electric" then
    let* f := gripper_force in
    let* params := gripper_parameters in
    let* mf := subscript params "moving_force" in
    if (mf <? f)%float then ret (Some true)
    else
      let* p := gripper_position in
      let* dead_band := get _dead_band in
      ret (Some (PrimFloat.abs (p - position) <? dead_band)%float)
  else ret None.

(** Truth value of what [check_state] returns, as [if] tests it. *)
Definition truthy (v : option bool) : bool :=
  match v with Some b => b | None => false end.

(** How the [while] statement of line 170 is left. *)
Inductive LoopExit :=
| LoopReturn      (* the [return] of line 179 *)
| LoopCondFalse.  (* the condition of line 170 evaluated to false *)

(** Line 170: the loop condition. *)
Definition loop_condition (start_time : float) : M bool :=
  let* elapsed := now_from_start start_time in
  let* timeout := get _timeout in
  ret ((elapsed <? timeout)%float || (timeout <? 0.0)%float).

(** Lines 175-182: a tick from the feedback update on.  [true] when the
    function returned at line 179. *)
Definition rest_of_tick (position control_rate : float) : M bool :=
  _update_feedback position;;
  let* st := check_state position in
  if truthy st then
    let* r := get result_message in
    emit (SetSucceeded r);;
    ret true
  else
    emit (CommandPosition position false);;
    let* fb := get _feedback in
    emit (PublishFeedback fb);;
    emit (RateSleep control_rate);;
    ret false.

(** Lines 171-182: the loop body. *)
Definition loop_body (position control_rate : float) : M bool :=
  let* pre := is_preempt_requested in
  (if pre then
     emit Stop;;
     let* name := get _action_name in
     emit (LogInfo (name +:+ ": Gripper Action Preempted"))
   else ret tt);;
  rest_of_tick position control_rate.

(** Lines 170-182.  Each unit of fuel pays for one evaluation of the loop
    condition. *)
Fixpoint while_loop (fuel : nat) (position start_time control_rate : float)
  : M LoopExit :=
  match fuel with
  | 0 => out_of_fuel
  | S fuel' =>
      let* go := loop_condition start_time in
      if go then
        let* returned := loop_body position control_rate in
        if returned then ret LoopReturn
        else while_loop fuel' position start_time control_rate
      else ret LoopCondFalse
  end.

(** Lines 125-154: what [_on_gripper_action] does before the loop; yields the
    locals [position], [effort], [control_rate] and [start_time]. *)
Definition before_loop (goal : GripperCommandGoal)
  : M (float * float * float * float) :=
  let position := cmd_position (command goal) in
  let* s := get id in
  let effort := effective_effort s (cmd_max_effort (command goal)) in
  let* err := gripper_error in
  (if err then
     let* name := get _action_name in
     emit (LogErr (name +:+
                   ": Gripper error - please restart action server."));;
     emit (SetAborted None)
   else ret tt);;
  _get_gripper_parameters;;
  _update_feedback position;;
  let control_rate := 20.0%float in
  let* start_time := get_time in
  let* type := get _type in
  (if String.eqb type "electric" then emit (SetMovingForce effort)
   else ret tt);;
  ret (position, effort, control_rate, start_time).

(** Lines 184-189: what follows the loop when it is left by its
    condition. *)
Definition after_loop (position : float) (success : bool) : M unit :=
  if negb success then
    let* name := get _action_name in
    emit (LogErr (name +:+
                  ": Gripper Command Not Achieved in Allotted Time"));;
    _update_feedback position;;
    let* r := get result_message in
    emit (SetAborted (Some r))
  else ret tt.

(** Lines 124-189. *)
Definition _on_gripper_action (fuel : nat) (goal : GripperCommandGoal)
  : M unit :=
  let* locals := before_loop goal in
  let '(position, _effort, control_rate, start_time) := locals in
  let success := false in
  let* exit := while_loop fuel position start_time control_rate in
  match exit with
  | LoopReturn => ret tt
  | LoopCondFalse => after_loop position success
  end.

End Program.

(** [GripperActionServer(gripper, parameters)]: a new object, initialised. *)
Definition new_server (w : World) (gripper : string)
    (parameters : gmap string float) : Res unit :=
  __init__ w gripper parameters
    {| self := blank_object; calls := no_calls; trace := [] |}.

(** ** Test benches

    Concrete servers and worlds on which the statements below are run. *)

(** The parameters an electric gripper reports. *)
Definition electric_parameters : gmap string float :=
  <["dead_zone" := 5.0%float]> (<["velocity" := 50.0%float]>
    (<["moving_force" := 30.0%float]> (<["holding_force" := 30.0%float]> ∅))).

(** A configuration with every key of the left gripper. *)
Definition left_config (timeout : float) : gmap string float :=
  <["left_gripper_timeout" := timeout]> (<["left_gripper_goal" := 5.0%float]>
    (<["left_gripper_velocity" := 50.0%float]>
      (<["left_gripper_moving_force" := 30.0%float]>
        (<["left_gripper_holding_force" := 30.0%float]> ∅)))).

(** A gripper held at position 100.0 that reports the given force; when
    [fault] is set it reports an error from the first goal on (not while the
    server is constructed).  The clock reads 0.0 first and 2.0 afterwards. *)
Definition bench (type : string) (fault preempt gripping : bool)
    (force : float) : World :=
  {| w_name := "/gripper_action_server"; w_type := type;
     w_error := fun i => fault && Nat.leb 1 i;
     w_calibrated := fun _ => true;
     w_position := fun _ => 100.0%float;
     w_force := fun _ => force;
     w_parameters := fun _ => electric_parameters;
     w_gripping := fun _ => gripping;
     w_preempt := fun _ => preempt;
     w_time := fun i => if Nat.eqb i 0 then 0.0%float else 2.0%float |}.

(** Close the gripper (position 0.0), effort not specified. *)
Definition close_goal : GripperCommandGoal :=
  {| command := {| cmd_position := 0.0%float; cmd_max_effort := 0.0%float |} |}.

(** The state once the server has been constructed for the left gripper. *)
Definition booted (w : World) (cfg : gmap string float) : State :=
  match new_server w "left" cfg with
  | Ok _ st | Raised _ st | Running st => st
  end.

(** The state in which [close_goal] enters the loop. *)
Definition at_loop_entry (w : World) (cfg : gmap string float) : State :=
  match before_loop w close_goal (booted w cfg) with
  | Ok _ st | Raised _ st | Running st => st
  end.

(** An electric gripper in error that pushes against an object. *)
Definition fault_world : World := bench "electric" true false false 50.0%float.

(** An electric gripper in error that is stuck away from the target. *)
Definition stuck_fault_world : World :=
  bench "electric" true false false 10.0%float.

(** A healthy electric gripper that pushes against an object. *)
Definition push_world : World := bench "electric" false false false 50.0%float.

(** The same while the client asks for preemption. *)
Definition preempt_world : World :=
  bench "electric" false true false 50.0%float.

(** A healthy electric gripper stuck away from the target. *)
Definition stuck_world : World := bench "electric" false false false 10.0%float.

(** A suction gripper that grips. *)
Definition suction_world : World := bench "suction" false false true 10.0%float.



(** An electric gripper whose driver reports no parameter at all. *)
Definition unconfigured_world : World :=
  {| w_name := "/gripper_action_server"; w_type := "electric";
     w_error := fun _ => false; w_calibrated := fun _ => true;
     w_position := fun _ => 100.0%float; w_force := fun _ => 50.0%float;
     w_parameters := fun _ => ∅;
     w_gripping := fun _ => false; w_preempt := fun _ => false;
     w_time := fun i => if Nat.eqb i 0 then 0.0%float else 2.0%float |}.

(** An electric gripper whose driver reports its parameters twice (to the
    constructor and to one feedback update) and none afterwards. *)
Definition fading_world : World :=
  {| w_name := "/gripper_action_server"; w_type := "electric";
     w_error := fun _ => false; w_calibrated := fun _ => true;
     w_position := fun _ => 100.0%float; w_force := fun _ => 50.0%float;
     w_parameters := fun i => if Nat.ltb i 2 then electric_parameters else ∅;
     w_gripping := fun _ => false; w_preempt := fun _ => false;
     w_time := fun i => if Nat.eqb i 0 then 0.0%float else 2.0%float |}.

(** A configuration of the left gripper without the velocity and the two
    forces. *)
Definition partial_config : gmap string float :=
  <["left_gripper_timeout" := 7.0%float]>
    (<["left_gripper_goal" := 3.0%float]> ∅).

(** * Notions the statements are written with *)

(** The state in which everything a run reports is looked up. *)
Definition res_state {A} (r : Res A) : State :=
  match r with Ok _ st | Raised _ st | Running st => st end.

(** The outcome of a computation without the state it ends in. *)
Inductive Verdict (A : Type) :=
| Returns (a : A)
| Raises (e : Exn)
| StillRunning.
Arguments Returns {A} a.
Arguments Raises {A} e.
Arguments StillRunning {A}.

Definition verdict {A} (r : Res A) : Verdict A :=
  match r with
  | Ok a _ => Returns a
  | Raised e _ => Raises e
  | Running _ => StillRunning
  end.

(** [s'] differs from [s] at most in the two message attributes. *)
Definition only_messages_change (s s' : GripperActionServer) : Prop :=
  s' = set_result (_result s') (set_feedback (_feedback s') s).

(** How many events of a trace satisfy a test. *)
Definition count (p : Event -> bool) (tr : list Event) : nat :=
  length (filter (fun e => p e = true) tr).

Definition is_stop (e : Event) : bool :=
  match e with Stop => true | _ => false end.

Definition is_succeeded (e : Event) : bool :=
  match e with SetSucceeded _ => true | _ => false end.

Definition is_aborted (e : Event) : bool :=
  match e with SetAborted _ => true | _ => false end.

(** The keys the constructor reads from the driver's parameters for an
    electric gripper (lines 83-86), in the order of the lookups. *)
Definition init_keys : list string :=
  ["dead_zone"; "velocity"; "moving_force"; "holding_force"].

Definition is_command_position (e : Event) : bool :=
  match e with CommandPosition _ _ => true | _ => false end.

Definition is_publish (e : Event) : bool :=
  match e with PublishFeedback _ => true | _ => false end.

Definition is_rate_sleep (e : Event) : bool :=
  match e with RateSleep _ => true | _ => false end.

(** A command that, if it moves the gripper, moves it towards [target]
    without blocking, and if it sleeps, sleeps at 20 Hz. *)
Definition aims_at (target : float) (e : Event) : Prop :=
  match e with
  | CommandPosition p block => p = target /\ block = false
  | RateSleep hz => hz = 20.0%float
  | _ => True
  end.

(** The object the constructor builds, before the electric attributes are
    read (lines 49-81). *)
Definition constructed_object (w : World) (gripper : string)
    (parameters : gmap string float) : GripperActionServer :=
  {| _param := parameters; _ee := gripper +:+ "_gripper";
     _ns := "robot/end_effector/" +:+ (gripper +:+ "_gripper")
            +:+ "/gripper_action";
     _action_name := w_name w; _feedback := fresh_message;
     _result := OwnResult; _type := w_type w; _timeout := 5.0%float;
     _default_effort := 40.0%float; _dead_band := 0%float;
     _velocity := 0%float; _moving_force := 0%float;
     _holding_force := 0%float |}.

(** What the constructor sends. *)
Definition startup_commands (w : World) : list Event :=
  [RospySleep 0.25%float; ServerStart]
  ++ (if w_error w 0 then [GripperReboot] else [])
  ++ (if w_calibrated w 0 then [] else [GripperCalibrate]).

(** The queries the constructor makes: one each of [error()],
    [calibrated()] and [parameters()]. *)
Definition startup_calls : Calls :=
  {| n_error := 1; n_calibrated := 1; n_position := 0; n_force := 0;
     n_parameters := 1; n_gripping := 0; n_preempt := 0; n_time := 0 |}.

(** A sequence of commands in which the gripper is commanded as often as
    feedback is published and as the loop sleeps, always towards [target],
    without blocking, at 20 Hz. *)
Definition paced (target : float) (evs : list Event) : Prop :=
  count is_command_position evs = count is_publish evs /\
  count is_publish evs = count is_rate_sleep evs /\
  Forall (aims_at target) evs.

(** How a goal's commands end: with nothing, or with one terminal
    outcome carrying a message. *)
Definition ending (last : list Event) : Prop :=
  last = [] \/
  exists fb, last = [SetSucceeded fb] \/ last = [SetAborted (Some fb)].

Section Verification.

Variable w : World.

(** The message [_update_feedback] leaves in [self._feedback] when the
    driver's parameters hold [mf] under ['moving_force']. *)
Definition snapshot (target mf : float) (st : State) : GripperCommandFeedback :=
  let c := calls st in
  {| position := w_position w (n_position c);
     effort := w_force w (n_force c);
     stalled := (mf <? w_force w (S (n_force c)))%float;
     reached_goal :=
       if String.eqb (_type (self st)) "electric"
       then (PrimFloat.abs (w_position w (S (n_position c)) - target)
               <? _dead_band (self st))%float
       else reached_goal (_feedback (self st)) |}.

(** The queries [_update_feedback] makes. *)
Definition calls_of_update (st : State) : Calls :=
  let c := calls st in
  {| n_error := n_error c; n_calibrated := n_calibrated c;
     n_position := if String.eqb (_type (self st)) "electric"
                   then S (S (n_position c)) else S (n_position c);
     n_force := S (S (n_force c));
     n_parameters := S (n_parameters c);
     n_gripping := if String.eqb (_type (self st)) "suction"
                   then S (n_gripping c) else n_gripping c;
     n_preempt := n_preempt c; n_time := n_time c |}.

Definition updated (target mf : float) (st : State) : State :=
  {| self := set_result SharesFeedback
               (set_feedback (snapshot target mf st) (self st));
     calls := calls_of_update st;
     trace := trace st |}.

(** The value [check_state] computes for an electric gripper whose
    parameters hold [mf] under ['moving_force']. *)
Definition converged (target mf : float) (st : State) : bool :=
  (mf <? w_force w (n_force (calls st)))%float
  || (PrimFloat.abs (w_position w (n_position (calls st)) - target)
        <? _dead_band (self st))%float.

(** The queries [check_state] makes for an electric gripper: the position
    is read only when the force test fails. *)
Definition checked (mf : float) (st : State) : State :=
  let c := calls st in
  with_calls
    {| n_error := n_error c; n_calibrated := n_calibrated c;
       n_position := if (mf <? w_force w (n_force c))%float
                     then n_position c else S (n_position c);
       n_force := S (n_force c);
       n_parameters := S (n_parameters c);
       n_gripping := n_gripping c; n_preempt := n_preempt c;
       n_time := n_time c |} st.

(** The state once the clock has been read. *)
Definition clocked (st : State) : State :=
  let c := calls st in
  with_calls
    {| n_error := n_error c; n_calibrated := n_calibrated c;
       n_position := n_position c; n_force := n_force c;
       n_parameters := n_parameters c; n_gripping := n_gripping c;
       n_preempt := n_preempt c; n_time := S (n_time c) |} st.

(** The value of the test of line 170 in state [st]. *)
Definition keeps_going (start_time : float) (st : State) : bool :=
  (w_time w (n_time (calls st)) - start_time <? _timeout (self st))%float
  || (_timeout (self st) <? 0.0)%float.

(** The commands the preemption test sends. *)
Definition preempt_commands (st : State) : list Event :=
  if w_preempt w (n_preempt (calls st))
  then [Stop; LogInfo (_action_name (self st) +:+ ": Gripper Action Preempted")]
  else [].

(** The state once the preempt flag has been polled and acted upon. *)
Definition polled (st : State) : State :=
  let c := calls st in
  send (preempt_commands st)
    (with_calls
       {| n_error := n_error c; n_calibrated := n_calibrated c;
          n_position := n_position c; n_force := n_force c;
          n_parameters := n_parameters c; n_gripping := n_gripping c;
          n_preempt := S (n_preempt c); n_time := n_time c |} st).

(** What a tick sends when it does not converge. *)
Definition tick_commands (target rate : float) (fb : GripperCommandFeedback)
  : list Event :=
  [CommandPosition target false; PublishFeedback fb; RateSleep rate].

(** What a part of the run leaves untouched: the attributes other than the
    two messages, and the number of clock readings. *)
Definition same_settings (st st' : State) : Prop :=
  only_messages_change (self st) (self st') /\
  n_time (calls st') = n_time (calls st).

(** The trace a tick leaves, by outcome. *)
Definition tick_trace (target rate : float) (st : State) (r : Res bool)
  : Prop :=
  match r with
  | Ok true st' =>
      trace st' = trace st ++ [SetSucceeded (_feedback (self st'))] /\
      result_message (self st') = _feedback (self st')
  | Ok false st' =>
      trace st' = trace st ++ tick_commands target rate (_feedback (self st'))
  | Raised _ st' => trace st' = trace st
  | Running _ => False
  end.

(** A sequence of commands that reports no terminal outcome. *)
Definition quiet (evs : list Event) : Prop :=
  count is_succeeded evs = 0 /\ count is_aborted evs = 0.

(** The trace the loop leaves, by outcome: a terminal outcome is reported
    only by the [return] of line 179, as the last command, and it is
    [set_succeeded] with the feedback message. *)
Definition loop_trace (st : State) (r : Res LoopExit) : Prop :=
  match r with
  | Ok LoopReturn st' =>
      exists evs, quiet evs /\
        trace st' = trace st ++ evs ++ [SetSucceeded (_feedback (self st'))] /\
        result_message (self st') = _feedback (self st')
  | Ok LoopCondFalse st' | Raised _ st' | Running st' =>
      exists evs, quiet evs /\ trace st' = trace st ++ evs
  end.

Definition with_self (s : GripperActionServer) (st : State) : State :=
  {| self := s; calls := calls st; trace := trace st |}.

(** The configuration keys [_get_gripper_parameters] asks for, in the
    order of the lookups. *)
Definition requested_keys (s : GripperActionServer) : list string :=
  (_ee s +:+ "_timeout") ::
  (if String.eqb (_type s) "electric"
   then [_ee s +:+ "_goal"; _ee s +:+ "_velocity";
         _ee s +:+ "_moving_force"; _ee s +:+ "_holding_force"]
   else []).

(** The dictionary passed to [set_parameters] (lines 98-102). *)
Definition param_update (d v m h : float) : gmap string float :=
  <["dead_zone" := d]> (<["velocity" := v]>
    (<["moving_force" := m]> (<["holding_force" := h]> ∅))).

(** The attributes parameter resolution never assigns. *)
Definition same_identity (s s' : GripperActionServer) : Prop :=
  _type s' = _type s /\ _ee s' = _ee s /\ _param s' = _param s /\
  _action_name s' = _action_name s /\
  _default_effort s' = _default_effort s /\
  _feedback s' = _feedback s /\ _result s' = _result s.

(** Every control parameter whose configuration key is absent has the value
    it had. *)
Definition absent_keys_retained (s s' : GripperActionServer) : Prop :=
  (_param s !! (_ee s +:+ "_timeout") = None -> _timeout s' = _timeout s) /\
  (_param s !! (_ee s +:+ "_goal") = None -> _dead_band s' = _dead_band s) /\
  (_param s !! (_ee s +:+ "_velocity") = None ->
   _velocity s' = _velocity s) /\
  (_param s !! (_ee s +:+ "_moving_force") = None ->
   _moving_force s' = _moving_force s) /\
  (_param s !! (_ee s +:+ "_holding_force") = None ->
   _holding_force s' = _holding_force s).

(** The commands of lines 135-138. *)
Definition fault_commands (st : State) : list Event :=
  if w_error w (n_error (calls st))
  then [LogErr (_action_name (self st) +:+
                ": Gripper error - please restart action server.");
        SetAborted None]
  else [].

(** The state once the error flag has been read and acted upon. *)
Definition error_checked (st : State) : State :=
  let c := calls st in
  send (fault_commands st)
    (with_calls
       {| n_error := S (n_error c); n_calibrated := n_calibrated c;
          n_position := n_position c; n_force := n_force c;
          n_parameters := n_parameters c; n_gripping := n_gripping c;
          n_preempt := n_preempt c; n_time := n_time c |} st).

(** The command of lines 153-154. *)
Definition force_commands (effort : float) (st : State) : list Event :=
  if String.eqb (_type (self st)) "electric" then [SetMovingForce effort]
  else [].

(** The log line of lines 186-187. *)
Definition timeout_log (st : State) : Event :=
  LogErr (_action_name (self st) +:+
          ": Gripper Command Not Achieved in Allotted Time").

(** The state in which an electric goal enters the loop when its five
    configuration keys hold [t], [d], [v], [m], [h] and the driver's
    parameters hold [mf] under ['moving_force']. *)
Definition electric_entry (goal : GripperCommandGoal) (t d v m h mf : float)
    (st : State) : State :=
  send [SetMovingForce
          (effective_effort (self st) (cmd_max_effort (command goal)))]
    (clocked
       (updated (cmd_position (command goal)) mf
          (send [SetParameters (param_update d v m h)]
             (with_self
                (set_holding_force h (set_moving_force m (set_velocity v
                   (set_dead_band d (set_timeout t (self st))))))
                (error_checked st))))).

(** * Verification *)

(** ** Floating-point facts *)

(** [-1.0] is the only double that [==] identifies with [-1.0]. *)
Lemma float_eqb_minus_one (e : float) :
  (e =? -1.0)%float = true -> e = (-1.0)%float.
Proof.
  intros H. rewrite FloatAxioms.eqb_spec in H.
  apply Prim2SF_inj.
  change (Prim2SF (-1.0)%float)
    with (S754_finite true 4503599627370496 (-52)) in *.
  destruct (Prim2SF e) as [s|s| |s m ex]; cbv [SFeqb SFcompare] in H.
  - discriminate.
  - destruct s; discriminate.
  - discriminate.
  - destruct s; try discriminate.
    destruct (Z.compare ex (-52)) eqn:Ez; try discriminate.
    destruct (PosDef.Pos.compare_cont Eq m 4503599627370496) eqn:Em;
      try discriminate.
    apply Z.compare_eq in Ez. apply Pos.compare_eq in Em. congruence.
Qed.

(** ** States a run passes through *)

Lemma only_messages_change_refl s : only_messages_change s s.
Proof. destruct s; reflexivity. Qed.

Lemma only_messages_change_trans s1 s2 s3 :
  only_messages_change s1 s2 -> only_messages_change s2 s3 ->
  only_messages_change s1 s3.
Proof.
  unfold only_messages_change. intros H12 H23.
  rewrite H23 at 1. rewrite H12 at 1. reflexivity.
Qed.

Lemma only_messages_change_fields s s' :
  only_messages_change s s' ->
  _type s' = _type s /\ _timeout s' = _timeout s /\
  _dead_band s' = _dead_band s /\ _action_name s' = _action_name s /\
  _default_effort s' = _default_effort s /\ _ee s' = _ee s /\
  _param s' = _param s.
Proof. intros H. rewrite H. repeat split. Qed.

Lemma count_app p tr1 tr2 : count p (tr1 ++ tr2) = count p tr1 + count p tr2.
Proof. unfold count. rewrite filter_app, length_app. reflexivity. Qed.

Lemma count_nil p : count p [] = 0.
Proof. reflexivity. Qed.

Lemma count_cons p e tr :
  count p (e :: tr) = (if p e then 1 else 0) + count p tr.
Proof.
  unfold count. rewrite filter_cons.
  destruct (decide (p e = true)) as [H|H].
  - rewrite H. reflexivity.
  - destruct (p e); [congruence|reflexivity].
Qed.

(** ** [_update_feedback] *)

Lemma _update_feedback_ok target mf st :
  w_parameters w (n_parameters (calls st)) !! "moving_force" = Some mf ->
  _update_feedback w target st = Ok tt (updated target mf st).
Proof.
  intros Hmf.
  unfold _update_feedback, updated, snapshot, calls_of_update, bind,
    gripper_position, gripper_force, gripper_parameters, gripper_gripping,
    subscript, modify, get, ret, with_calls; simpl.
  rewrite Hmf; simpl.
  destruct (String.eqb (_type (self st)) "electric");
    destruct (String.eqb (_type (self st)) "suction"); reflexivity.
Qed.

(** What the update writes: the position and the force read, the force
    test against the driver's ['moving_force'], and, for an electric gripper
    only, the dead-band test; for any other type [reached_goal] is left as it
    was.  The result then denotes the feedback message. *)
Lemma _update_feedback_fields target mf st :
  w_parameters w (n_parameters (calls st)) !! "moving_force" = Some mf ->
  exists st',
    _update_feedback w target st = Ok tt st' /\
    position (_feedback (self st')) = w_position w (n_position (calls st)) /\
    effort (_feedback (self st')) = w_force w (n_force (calls st)) /\
    stalled (_feedback (self st'))
      = (mf <? w_force w (S (n_force (calls st))))%float /\
    (_type (self st) = "electric" ->
     reached_goal (_feedback (self st'))
     = (PrimFloat.abs (w_position w (S (n_position (calls st))) - target)
          <? _dead_band (self st))%float) /\
    (_type (self st) <> "electric" ->
     reached_goal (_feedback (self st'))
     = reached_goal (_feedback (self st))) /\
    result_message (self st') = _feedback (self st').
Proof.
  intros Hmf. exists (updated target mf st).
  split; [apply _update_feedback_ok; exact Hmf|].
  repeat (split; [reflexivity|]).
  split; [|split; [|reflexivity]]; intros Hty; simpl.
  - rewrite Hty. reflexivity.
  - destruct (String.eqb_spec (_type (self st)) "electric");
      [contradiction|reflexivity].
Qed.

Lemma _update_feedback_raises target st :
  w_parameters w (n_parameters (calls st)) !! "moving_force" = None ->
  exists st', _update_feedback w target st = Raised (KeyError "moving_force") st'
              /\ trace st' = trace st
              /\ only_messages_change (self st) (self st').
Proof.
  intros Hmf.
  unfold _update_feedback, bind, gripper_position, gripper_force,
    gripper_parameters, subscript, modify, get, ret, raise, with_calls; simpl.
  rewrite Hmf; simpl.
  eexists; split; [reflexivity|]. split; [reflexivity|].
  destruct st as [s c t]; destruct s; reflexivity.
Qed.

Lemma updated_only_messages_change target mf st :
  only_messages_change (self st) (self (updated target mf st)).
Proof. destruct st as [s c t]; destruct s; reflexivity. Qed.

(** Whatever its outcome, [_update_feedback] sends no command and touches
    only the message attributes. *)
Lemma _update_feedback_frame target st :
  trace (res_state (_update_feedback w target st)) = trace st /\
  only_messages_change (self st)
    (self (res_state (_update_feedback w target st))) /\
  n_time (calls (res_state (_update_feedback w target st)))
    = n_time (calls st) /\
  n_preempt (calls (res_state (_update_feedback w target st)))
    = n_preempt (calls st).
Proof.
  destruct (w_parameters w (n_parameters (calls st)) !! "moving_force")
    as [mf|] eqn:Hmf.
  - rewrite (_update_feedback_ok _ _ _ Hmf); simpl.
    split; [reflexivity|]. split; [apply updated_only_messages_change|].
    split; reflexivity.
  - unfold _update_feedback, bind, gripper_position, gripper_force,
      gripper_parameters, subscript, modify, get, ret, raise, with_calls;
      simpl.
    rewrite Hmf; simpl.
    split; [reflexivity|]. split; [|split; reflexivity].
    destruct st as [s c t]; destruct s; reflexivity.
Qed.

(** ** [check_state] *)

Lemma check_state_electric target mf st :
  _type (self st) = "electric" ->
  w_parameters w (n_parameters (calls st)) !! "moving_force" = Some mf ->
  check_state w target st = Ok (Some (converged target mf st)) (checked mf st).
Proof.
  intros Hty Hmf.
  unfold check_state, converged, checked, bind, get, gripper_force,
    gripper_parameters, gripper_position, subscript, ret, with_calls; simpl.
  rewrite Hty; simpl. rewrite Hmf; simpl.
  destruct (mf <? w_force w (n_force (calls st)))%float; reflexivity.
Qed.

Lemma check_state_other target st :
  _type (self st) <> "electric" ->
  check_state w target st = Ok None st.
Proof.
  intros Hty. unfold check_state, bind, get, ret; simpl.
  destruct (String.eqb_spec (_type (self st)) "electric") as [E|E];
    [contradiction|reflexivity].
Qed.

(** Whatever its outcome, [check_state] sends no command, leaves the object
    alone and does not read the clock. *)
Lemma check_state_frame target st :
  trace (res_state (check_state w target st)) = trace st /\
  self (res_state (check_state w target st)) = self st /\
  n_time (calls (res_state (check_state w target st))) = n_time (calls st) /\
  n_preempt (calls (res_state (check_state w target st)))
    = n_preempt (calls st).
Proof.
  unfold check_state, bind, get, gripper_force, gripper_parameters,
    gripper_position, subscript, ret, raise, with_calls; simpl.
  destruct (String.eqb (_type (self st)) "electric"); simpl; [|tauto].
  destruct (w_parameters w (n_parameters (calls st)) !! "moving_force");
    simpl; [|tauto].
  destruct (_ <? _)%float; simpl; tauto.
Qed.

(** ** The loop condition *)

Lemma loop_condition_eq start_time st :
  loop_condition w start_time st
  = Ok (keeps_going start_time st) (clocked st).
Proof. reflexivity. Qed.

(** ** The preemption test of lines 171-174 *)

Lemma send_send evs1 evs2 st :
  send evs2 (send evs1 st) = send (evs1 ++ evs2) st.
Proof. unfold send; simpl. rewrite <- app_assoc. reflexivity. Qed.

Lemma send_nil st : send [] st = st.
Proof. unfold send. rewrite app_nil_r. destruct st; reflexivity. Qed.

Lemma loop_body_eq target rate st :
  loop_body w target rate st = rest_of_tick w target rate (polled st).
Proof.
  unfold loop_body, polled, preempt_commands, bind, is_preempt_requested,
    emit, get, ret; simpl.
  destruct (w_preempt w (n_preempt (calls st))); simpl.
  - rewrite send_send. reflexivity.
  - rewrite send_nil. reflexivity.
Qed.

(** ** One tick *)

Lemma rest_of_tick_converged target rate mf1 mf2 st :
  _type (self st) = "electric" ->
  w_parameters w (n_parameters (calls st)) !! "moving_force" = Some mf1 ->
  w_parameters w (S (n_parameters (calls st))) !! "moving_force" = Some mf2 ->
  converged target mf2 (updated target mf1 st) = true ->
  rest_of_tick w target rate st
  = Ok true (send [SetSucceeded (snapshot target mf1 st)]
               (checked mf2 (updated target mf1 st))).
Proof.
  intros Hty H1 H2 Hc. unfold rest_of_tick, bind.
  rewrite (_update_feedback_ok _ _ _ H1).
  rewrite (check_state_electric target mf2) by (simpl; assumption).
  rewrite Hc. reflexivity.
Qed.

Lemma rest_of_tick_not_converged target rate mf1 mf2 st :
  _type (self st) = "electric" ->
  w_parameters w (n_parameters (calls st)) !! "moving_force" = Some mf1 ->
  w_parameters w (S (n_parameters (calls st))) !! "moving_force" = Some mf2 ->
  converged target mf2 (updated target mf1 st) = false ->
  rest_of_tick w target rate st
  = Ok false (send (tick_commands target rate (snapshot target mf1 st))
                (checked mf2 (updated target mf1 st))).
Proof.
  intros Hty H1 H2 Hc. unfold rest_of_tick, bind.
  rewrite (_update_feedback_ok _ _ _ H1).
  rewrite (check_state_electric target mf2) by (simpl; assumption).
  rewrite Hc. unfold emit, get, ret; simpl. rewrite !send_send. reflexivity.
Qed.

Lemma rest_of_tick_other target rate mf st :
  _type (self st) <> "electric" ->
  w_parameters w (n_parameters (calls st)) !! "moving_force" = Some mf ->
  rest_of_tick w target rate st
  = Ok false (send (tick_commands target rate (snapshot target mf st))
                (updated target mf st)).
Proof.
  intros Hty H1. unfold rest_of_tick, bind.
  rewrite (_update_feedback_ok _ _ _ H1).
  rewrite check_state_other by (simpl; assumption).
  unfold emit, get, ret; simpl. rewrite !send_send. reflexivity.
Qed.

Lemma same_settings_refl st : same_settings st st.
Proof. split; [apply only_messages_change_refl|reflexivity]. Qed.

Lemma same_settings_trans st1 st2 st3 :
  same_settings st1 st2 -> same_settings st2 st3 -> same_settings st1 st3.
Proof.
  intros [A1 B1] [A2 B2]. split.
  - eapply only_messages_change_trans; eassumption.
  - congruence.
Qed.

Lemma rest_of_tick_frame target rate st :
  same_settings st (res_state (rest_of_tick w target rate st)) /\
  n_preempt (calls (res_state (rest_of_tick w target rate st)))
    = n_preempt (calls st) /\
  tick_trace target rate st (rest_of_tick w target rate st).
Proof.
  unfold rest_of_tick, bind, same_settings.
  destruct (_update_feedback_frame target st) as (Ht & Hs & Hn & Hp).
  destruct (_update_feedback w target st) as [[] st1|e st1|st1] eqn:E1;
    simpl in *.
  - destruct (check_state_frame target st1) as (Ht2 & Hs2 & Hn2 & Hp2).
    assert (Hr : result_message (self st1) = _feedback (self st1)).
    { destruct (w_parameters w (n_parameters (calls st)) !! "moving_force")
        as [mf|] eqn:Hmf.
      - rewrite (_update_feedback_ok _ _ _ Hmf) in E1.
        injection E1 as <-. reflexivity.
      - destruct (_update_feedback_raises target st Hmf) as (x & Hx & _).
        congruence. }
    destruct (check_state w target st1) as [v st2|e st2|st2] eqn:E2;
      simpl in *.
    + destruct (truthy v); unfold emit, get, ret; simpl;
        rewrite ?send_send; simpl; rewrite Hs2, Hn2, Hp2, Ht2, Ht, Hn, Hp;
        repeat split; try assumption.
      * rewrite Hr. reflexivity.
      * rewrite <- !app_assoc. reflexivity.
    + rewrite Hs2, Hn2, Hp2, Ht2, Ht, Hn, Hp. repeat split; assumption.
    + unfold check_state, bind, get, gripper_force, gripper_parameters,
        gripper_position, subscript, ret, raise in E2.
      simpl in E2.
      repeat (match type of E2 with
              | context [if ?b then _ else _] => destruct b
              | context [match ?o with Some _ => _ | None => _ end] =>
                  destruct o
              end; simpl in E2); discriminate.
  - repeat split; assumption.
  - destruct (w_parameters w (n_parameters (calls st)) !! "moving_force")
      as [mf|] eqn:Hmf.
    + rewrite (_update_feedback_ok _ _ _ Hmf) in E1. discriminate.
    + destruct (_update_feedback_raises target st Hmf) as (x & Hx & _).
      congruence.
Qed.

(** The feedback update and the convergence check do not look at what was
    sent before: two states with the same object and the same query counts
    give the same verdict, the same object and the same counts. *)
Lemma rest_of_tick_ignores_trace target rate st tr :
  let r1 := rest_of_tick w target rate st in
  let r2 := rest_of_tick w target rate
              {| self := self st; calls := calls st; trace := tr |} in
  verdict r1 = verdict r2 /\
  self (res_state r1) = self (res_state r2) /\
  calls (res_state r1) = calls (res_state r2).
Proof.
  unfold rest_of_tick, bind, _update_feedback, check_state, bind,
    gripper_position, gripper_force, gripper_parameters, gripper_gripping,
    subscript, modify, get, ret, raise, emit, send, with_calls; simpl.
  destruct (w_parameters w (n_parameters (calls st)) !! "moving_force");
    simpl; [|tauto].
  destruct (String.eqb (_type (self st)) "electric") eqn:E1;
    destruct (String.eqb (_type (self st)) "suction") eqn:E2; simpl;
    rewrite ?E1; simpl; try tauto.
  all: destruct (w_parameters w (S (n_parameters (calls st)))
                 !! "moving_force"); simpl; try tauto.
  all: destruct (_ <? w_force w (S (S (n_force (calls st)))))%float; simpl;
    try tauto.
  all: destruct (_ <? _dead_band (self st))%float; simpl; tauto.
Qed.

(** ** The loop *)

Lemma while_loop_S n target start rate st :
  while_loop w (S n) target start rate st
  = if keeps_going start st then
      match loop_body w target rate (clocked st) with
      | Ok true st' => Ok LoopReturn st'
      | Ok false st' => while_loop w n target start rate st'
      | Raised e st' => Raised e st'
      | Running st' => Running st'
      end
    else Ok LoopCondFalse (clocked st).
Proof.
  simpl. unfold bind. rewrite loop_condition_eq.
  destruct (keeps_going start st); [|reflexivity].
  destruct (loop_body w target rate (clocked st)) as [[] ?|? ?|?];
    reflexivity.
Qed.

Lemma quiet_nil : quiet [].
Proof. split; apply count_nil. Qed.

Lemma quiet_app evs1 evs2 : quiet evs1 -> quiet evs2 -> quiet (evs1 ++ evs2).
Proof.
  intros [A1 B1] [A2 B2]. split; rewrite count_app; lia.
Qed.

Lemma quiet_preempt_commands st : quiet (preempt_commands st).
Proof.
  unfold preempt_commands.
  destruct (w_preempt _ _); split; rewrite ?count_cons, ?count_nil;
    reflexivity.
Qed.

Lemma quiet_tick_commands target rate fb : quiet (tick_commands target rate fb).
Proof.
  unfold tick_commands. split; rewrite !count_cons, count_nil; reflexivity.
Qed.

Lemma loop_body_frame target rate st :
  same_settings st (res_state (loop_body w target rate st)) /\
  n_preempt (calls (res_state (loop_body w target rate st)))
    = S (n_preempt (calls st)) /\
  tick_trace target rate (polled st) (loop_body w target rate st).
Proof.
  rewrite loop_body_eq.
  destruct (rest_of_tick_frame target rate (polled st)) as ([Hs Hn] & Hp & Ht).
  split; [|split; assumption].
  split; assumption.
Qed.

Lemma while_loop_frame n target start rate : forall st,
  only_messages_change (self st)
    (self (res_state (while_loop w n target start rate st))) /\
  loop_trace st (while_loop w n target start rate st).
Proof.
  induction n as [|n IH]; intros st.
  - simpl. split; [apply only_messages_change_refl|].
    exists []. split; [apply quiet_nil|]. rewrite app_nil_r. reflexivity.
  - rewrite while_loop_S.
    destruct (keeps_going start st).
    2:{ simpl. split; [apply only_messages_change_refl|].
        exists []. split; [apply quiet_nil|]. rewrite app_nil_r.
        reflexivity. }
    destruct (loop_body_frame target rate (clocked st)) as ([Hs _] & _ & Ht).
    destruct (loop_body w target rate (clocked st)) as [[|] st1|e st1|st1];
      simpl in *; try contradiction.
    + destruct Ht as [Ht Hr]. split; [assumption|].
      exists (preempt_commands (clocked st)).
      split; [apply quiet_preempt_commands|].
      rewrite Ht. unfold preempt_commands. simpl. rewrite <- app_assoc.
      split; [reflexivity|assumption].
    + destruct (IH st1) as [Hs1 Ht1]. split.
      * eapply only_messages_change_trans; eassumption.
      * assert (Hpre : trace st1 = trace st ++
                  (preempt_commands (clocked st) ++
                   tick_commands target rate (_feedback (self st1)))).
        { rewrite Ht. unfold preempt_commands. simpl.
          rewrite <- app_assoc. reflexivity. }
        assert (Hq : quiet (preempt_commands (clocked st) ++
                   tick_commands target rate (_feedback (self st1)))).
        { apply quiet_app;
            [apply quiet_preempt_commands|apply quiet_tick_commands]. }
        destruct (while_loop w n target start rate st1)
          as [[|] st2|e st2|st2]; simpl in *.
        -- destruct Ht1 as (evs & Hq1 & Ht1 & Hr1).
           eexists. split; [apply (quiet_app _ _ Hq Hq1)|].
           rewrite Ht1, Hpre, <- !app_assoc. split; [reflexivity|assumption].
        -- destruct Ht1 as (evs & Hq1 & Ht1).
           eexists. split; [apply (quiet_app _ _ Hq Hq1)|].
           rewrite Ht1, Hpre, <- !app_assoc. reflexivity.
        -- destruct Ht1 as (evs & Hq1 & Ht1).
           eexists. split; [apply (quiet_app _ _ Hq Hq1)|].
           rewrite Ht1, Hpre, <- !app_assoc. reflexivity.
        -- destruct Ht1 as (evs & Hq1 & Ht1).
           eexists. split; [apply (quiet_app _ _ Hq Hq1)|].
           rewrite Ht1, Hpre, <- !app_assoc. reflexivity.
    + split; [assumption|].
      exists (preempt_commands (clocked st)).
      split; [apply quiet_preempt_commands|].
      rewrite Ht. reflexivity.
Qed.

Lemma _on_gripper_action_eq n goal st0 :
  _on_gripper_action w n goal st0
  = match before_loop w goal st0 with
    | Ok (target, _, rate, start) st =>
        match while_loop w n target start rate st with
        | Ok LoopReturn st' => Ok tt st'
        | Ok LoopCondFalse st' => after_loop w target false st'
        | Raised e st' => Raised e st'
        | Running st' => Running st'
        end
    | Raised e st => Raised e st
    | Running st => Running st
    end.
Proof.
  unfold _on_gripper_action, bind.
  destruct (before_loop w goal st0) as [[[[target eff] rate] start] st|e st|st];
    try reflexivity.
  destruct (while_loop w n target start rate st) as [[|] st'|e st'|st'];
    reflexivity.
Qed.

(** ** Convergence of an electric gripper *)

(** C4.  For an electric gripper, the convergence check of a tick returns
    true exactly when the force read is strictly greater than the
    ['moving_force'] parameter or the distance from the position read to the
    target is strictly less than the dead band.  When it returns true the
    loop is left at once, whatever fuel remains: the last command is
    [set_succeeded] with the feedback message computed in this tick, which is
    also the result message.  A force above the threshold is enough,
    wherever the position is. *)
Theorem C4_electric_convergence (n : nat) (target start rate mf1 mf2 : float)
    (st : State) :
  _type (self st) = "electric" ->
  keeps_going start st = true ->
  w_parameters w (n_parameters (calls st)) !! "moving_force" = Some mf1 ->
  w_parameters w (S (n_parameters (calls st))) !! "moving_force" = Some mf2 ->
  let st1 := updated target mf1 (polled (clocked st)) in
  let force := w_force w (n_force (calls st1)) in
  let pos := w_position w (n_position (calls st1)) in
  check_state w target st1
    = Ok (Some (converged target mf2 st1)) (checked mf2 st1) /\
  (converged target mf2 st1 = true <->
     (mf2 <? force)%float = true \/
     (PrimFloat.abs (pos - target) <? _dead_band (self st))%float = true) /\
  ((mf2 <? force)%float = true -> converged target mf2 st1 = true) /\
  (converged target mf2 st1 = true ->
     let st2 := send [SetSucceeded (snapshot target mf1 (polled (clocked st)))]
                  (checked mf2 st1) in
     while_loop w (S n) target start rate st = Ok LoopReturn st2 /\
     _feedback (self st2) = snapshot target mf1 (polled (clocked st)) /\
     result_message (self st2) = _feedback (self st2)).
Proof.
  intros Hty Hgo H1 H2 st1 force pos.
  assert (Hty1 : _type (self st1) = "electric") by exact Hty.
  split; [apply check_state_electric; assumption|].
  split.
  { unfold converged. rewrite orb_true_iff. reflexivity. }
  split.
  { intros Hf. unfold converged. fold force. rewrite Hf. reflexivity. }
  intros Hc st2. split; [|split; reflexivity].
  rewrite while_loop_S, Hgo, loop_body_eq.
  rewrite (rest_of_tick_converged target rate mf1 mf2); try assumption.
  reflexivity.
Qed.

(** ** Preemption *)

(** What follows the preemption test in a tick: the feedback update, then
    the convergence check on the state the update leaves, then either
    [set_succeeded] with the result, or the position command, the feedback
    and the sleep. *)
Lemma rest_of_tick_eq target rate st :
  rest_of_tick w target rate st
  = match _update_feedback w target st with
    | Ok _ st1 =>
        match check_state w target st1 with
        | Ok v st2 =>
            if truthy v
            then Ok true (send [SetSucceeded (result_message (self st2))] st2)
            else Ok false
                   (send (tick_commands target rate (_feedback (self st2))) st2)
        | Raised e st2 => Raised e st2
        | Running st2 => Running st2
        end
    | Raised e st1 => Raised e st1
    | Running st1 => Running st1
    end.
Proof.
  unfold rest_of_tick, bind.
  destruct (_update_feedback w target st) as [[] st1|e st1|st1];
    try reflexivity.
  destruct (check_state w target st1) as [v st2|e st2|st2]; try reflexivity.
  destruct (truthy v); unfold emit, get, ret; simpl; rewrite ?send_send;
    reflexivity.
Qed.

(** C5.  On a tick where the server reports a preempt request, [stop()] is
    sent exactly once (followed by the log line) and the flag is polled
    once.  The request does not end the tick: the tick goes on with the
    feedback update, run on the state the two commands leave, and then with
    the convergence check, and what it returns is what the check says
    ([set_succeeded] and the [return] when it is true, the position command,
    the feedback and the sleep when it is not), the same as without the two
    commands in the trace.  For an electric gripper this is the value of the
    convergence rule on the readings of the tick; for any other type the
    tick never ends the loop.  The loop is left at this tick only by that
    [return] or by an exception; otherwise it goes on to the next evaluation
    of its condition. *)
Theorem C5_preempt_stops_once (target rate : float) (st : State) :
  w_preempt w (n_preempt (calls st)) = true ->
  let r := loop_body w target rate st in
  trace (polled st)
    = trace st ++
      [Stop; LogInfo (_action_name (self st) +:+ ": Gripper Action Preempted")]
  /\ self (polled st) = self st
  /\ r = rest_of_tick w target rate (polled st)
  /\ count is_stop (trace (res_state r)) = S (count is_stop (trace st))
  /\ n_preempt (calls (res_state r)) = S (n_preempt (calls st))
  /\ verdict r
     = verdict (rest_of_tick w target rate
                  {| self := self st; calls := calls (polled st);
                     trace := trace st |})
  /\ r = match _update_feedback w target (polled st) with
         | Ok _ st1 =>
             match check_state w target st1 with
             | Ok v st2 =>
                 if truthy v
                 then Ok true
                        (send [SetSucceeded (result_message (self st2))] st2)
                 else Ok false
                        (send (tick_commands target rate (_feedback (self st2)))
                           st2)
             | Raised e st2 => Raised e st2
             | Running st2 => Running st2
             end
         | Raised e st1 => Raised e st1
         | Running st1 => Running st1
         end
  /\ (forall mf1 mf2,
        _type (self st) = "electric" ->
        w_parameters w (n_parameters (calls st)) !! "moving_force" = Some mf1 ->
        w_parameters w (S (n_parameters (calls st))) !! "moving_force"
          = Some mf2 ->
        r = if converged target mf2 (updated target mf1 (polled st))
            then Ok true
                   (send [SetSucceeded (snapshot target mf1 (polled st))]
                      (checked mf2 (updated target mf1 (polled st))))
            else Ok false
                   (send (tick_commands target rate
                            (snapshot target mf1 (polled st)))
                      (checked mf2 (updated target mf1 (polled st)))))
  /\ (forall mf,
        _type (self st) <> "electric" ->
        w_parameters w (n_parameters (calls st)) !! "moving_force" = Some mf ->
        r = Ok false
              (send (tick_commands target rate (snapshot target mf (polled st)))
                 (updated target mf (polled st))))
  /\ (forall n start st0,
        st = clocked st0 ->
        while_loop w (S n) target start rate st0
        = if keeps_going start st0 then
            match r with
            | Ok true st' => Ok LoopReturn st'
            | Ok false st' => while_loop w n target start rate st'
            | Raised e st' => Raised e st'
            | Running st' => Running st'
            end
          else Ok LoopCondFalse st).
Proof.
  intros Hpre r.
  assert (Htr : trace (polled st) = trace st ++
            [Stop;
             LogInfo (_action_name (self st) +:+ ": Gripper Action Preempted")]).
  { unfold polled, preempt_commands. rewrite Hpre. reflexivity. }
  split; [exact Htr|]. split; [reflexivity|].
  split; [apply loop_body_eq|].
  destruct (loop_body_frame target rate st) as (_ & Hn & Ht). fold r in Hn, Ht.
  split; [|split; [exact Hn|]].
  { destruct r as [[|] st'|e st'|st']; simpl in *; try contradiction.
    + destruct Ht as [Ht _].
      rewrite Ht, Htr, !count_app, !count_cons, !count_nil. simpl. lia.
    + unfold tick_commands in Ht.
      rewrite Ht, Htr, !count_app, !count_cons, !count_nil. simpl. lia.
    + rewrite Ht, Htr, !count_app, !count_cons, !count_nil. simpl. lia. }
  split.
  { unfold r. rewrite loop_body_eq.
    destruct (rest_of_tick_ignores_trace target rate (polled st) (trace st))
      as (Hv & _). exact Hv. }
  split.
  { unfold r. rewrite loop_body_eq. apply rest_of_tick_eq. }
  split.
  { intros mf1 mf2 Hty H1 H2. unfold r. rewrite loop_body_eq.
    destruct (converged target mf2 (updated target mf1 (polled st))) eqn:Hc.
    - apply rest_of_tick_converged; assumption.
    - apply rest_of_tick_not_converged; assumption. }
  split.
  { intros mf Hty H1. unfold r. rewrite loop_body_eq.
    apply rest_of_tick_other; assumption. }
  intros n start st0 ->. apply while_loop_S.
Qed.

(** ** Effort resolution *)

(** C3.  With the default effort the constructor sets (40.0), the effort a
    goal is executed with is 40.0 when the absolute value of the requested
    effort is below 0.0001, 100.0 when the requested effort equals -1.0, and
    the requested effort otherwise. *)
Theorem C3_effort_resolution (s : GripperActionServer) (e : float) :
  _default_effort s = 40.0%float ->
  ((PrimFloat.abs e <? 0.0001)%float = true ->
     effective_effort s e = 40.0%float) /\
  ((e =? -1.0)%float = true -> effective_effort s e = 100.0%float) /\
  ((PrimFloat.abs e <? 0.0001)%float = false -> (e =? -1.0)%float = false ->
     effective_effort s e = e) /\
  effective_effort s 0.0%float = 40.0%float /\
  effective_effort s 0.00005%float = 40.0%float /\
  effective_effort s (-1.0)%float = 100.0%float /\
  effective_effort s 25.0%float = 25.0%float.
Proof.
  intros Hd. unfold effective_effort. rewrite Hd.
  repeat split.
  - intros ->. reflexivity.
  - intros He. rewrite (float_eqb_minus_one e He). reflexivity.
  - intros -> ->. reflexivity.
Qed.

(** ** Parameter resolution *)

Lemma _get_gripper_parameters_other st t :
  _type (self st) <> "electric" ->
  _param (self st) !! (_ee (self st) +:+ "_timeout") = Some t ->
  _get_gripper_parameters st = Ok tt (with_self (set_timeout t (self st)) st).
Proof.
  intros Hty Ht.
  unfold _get_gripper_parameters, bind, get, subscript, modify, ret; simpl.
  rewrite Ht; simpl.
  destruct (String.eqb_spec (_type (self st)) "electric") as [E|E];
    [contradiction|reflexivity].
Qed.

Lemma _get_gripper_parameters_electric st t d v m h :
  _type (self st) = "electric" ->
  _param (self st) !! (_ee (self st) +:+ "_timeout") = Some t ->
  _param (self st) !! (_ee (self st) +:+ "_goal") = Some d ->
  _param (self st) !! (_ee (self st) +:+ "_velocity") = Some v ->
  _param (self st) !! (_ee (self st) +:+ "_moving_force") = Some m ->
  _param (self st) !! (_ee (self st) +:+ "_holding_force") = Some h ->
  _get_gripper_parameters st
  = Ok tt (send [SetParameters (param_update d v m h)]
             (with_self
                (set_holding_force h (set_moving_force m (set_velocity v
                   (set_dead_band d (set_timeout t (self st)))))) st)).
Proof.
  intros Hty Ht Hd Hv Hm Hh.
  unfold _get_gripper_parameters, bind, get, subscript, modify, ret, emit;
    simpl.
  rewrite Ht; simpl. rewrite Hty; simpl.
  rewrite Hd; simpl. rewrite Hv; simpl. rewrite Hm; simpl. rewrite Hh; simpl.
  reflexivity.
Qed.

(** Whatever its outcome, parameter resolution makes no query, and the only
    command it may send is [set_parameters]. *)
Lemma _get_gripper_parameters_frame st :
  let r := _get_gripper_parameters st in
  calls (res_state r) = calls st /\
  same_identity (self st) (self (res_state r)) /\
  (exists evs, quiet evs /\ trace (res_state r) = trace st ++ evs).
Proof.
  unfold _get_gripper_parameters, bind, get, subscript, modify, ret, raise,
    emit, same_identity; simpl.
  assert (Hnil : exists evs, quiet evs /\ trace st = trace st ++ evs).
  { exists []. split; [apply quiet_nil|]. rewrite app_nil_r. reflexivity. }
  destruct (_param (self st) !! (_ee (self st) +:+ "_timeout")); simpl;
    [|tauto].
  destruct (String.eqb (_type (self st)) "electric"); simpl; [|tauto].
  destruct (_param (self st) !! (_ee (self st) +:+ "_goal")); simpl;
    [|tauto].
  destruct (_param (self st) !! (_ee (self st) +:+ "_velocity")); simpl;
    [|tauto].
  destruct (_param (self st) !! (_ee (self st) +:+ "_moving_force")); simpl;
    [|tauto].
  destruct (_param (self st) !! (_ee (self st) +:+ "_holding_force")); simpl;
    [|tauto].
  repeat split.
  eexists. split; [|reflexivity].
  split; rewrite count_cons, count_nil; reflexivity.
Qed.

(** A missing key makes the lookup raise; nothing is sent, the parameters
    whose keys are absent keep their values, and when the absent key is the
    timeout, the first one read, no attribute has changed. *)
Lemma _get_gripper_parameters_missing st k :
  k ∈ requested_keys (self st) ->
  _param (self st) !! k = None ->
  exists k' st',
    k' ∈ requested_keys (self st) /\ _param (self st) !! k' = None /\
    _get_gripper_parameters st = Raised (KeyError k') st' /\
    trace st' = trace st /\ calls st' = calls st /\
    absent_keys_retained (self st) (self st') /\
    (_param (self st) !! (_ee (self st) +:+ "_timeout") = None -> st' = st).
Proof.
  unfold requested_keys, _get_gripper_parameters, bind, get, subscript,
    modify, ret, raise, emit, absent_keys_retained; simpl.
  intros Hin Hk.
  destruct (_param (self st) !! (_ee (self st) +:+ "_timeout")) eqn:Ht; simpl.
  2:{ exists (_ee (self st) +:+ "_timeout"), st.
      repeat split; try assumption; try reflexivity.
      apply list_elem_of_here. }
  destruct (String.eqb (_type (self st)) "electric"); simpl.
  2:{ apply list_elem_of_singleton in Hin. congruence. }
  destruct (_param (self st) !! (_ee (self st) +:+ "_goal")) eqn:Hd; simpl.
  2:{ eexists (_ee (self st) +:+ "_goal"), _.
      split; [repeat constructor|]. split; [assumption|].
      split; [reflexivity|].
      repeat split; intros; (reflexivity || congruence). }
  destruct (_param (self st) !! (_ee (self st) +:+ "_velocity")) eqn:Hv; simpl.
  2:{ eexists (_ee (self st) +:+ "_velocity"), _.
      split; [repeat constructor|]. split; [assumption|].
      split; [reflexivity|].
      repeat split; intros; (reflexivity || congruence). }
  destruct (_param (self st) !! (_ee (self st) +:+ "_moving_force")) eqn:Hm;
    simpl.
  2:{ eexists (_ee (self st) +:+ "_moving_force"), _.
      split; [repeat constructor|]. split; [assumption|].
      split; [reflexivity|].
      repeat split; intros; (reflexivity || congruence). }
  destruct (_param (self st) !! (_ee (self st) +:+ "_holding_force")) eqn:Hh;
    simpl.
  2:{ eexists (_ee (self st) +:+ "_holding_force"), _.
      split; [repeat constructor|]. split; [assumption|].
      split; [reflexivity|].
      repeat split; intros; (reflexivity || congruence). }
  exfalso.
  rewrite !elem_of_cons, elem_of_nil in Hin.
  destruct Hin as [->|[->|[->|[->|[->|[]]]]]]; congruence.
Qed.

(** ** Before and after the loop *)

Lemma before_loop_eq goal st :
  before_loop w goal st
  = let target := cmd_position (command goal) in
    let eff := effective_effort (self st) (cmd_max_effort (command goal)) in
    match _get_gripper_parameters (error_checked st) with
    | Ok _ st1 =>
        match _update_feedback w target st1 with
        | Ok _ st2 =>
            Ok (target, eff, 20.0%float, w_time w (n_time (calls st2)))
               (send (force_commands eff st2) (clocked st2))
        | Raised e st2 => Raised e st2
        | Running st2 => Running st2
        end
    | Raised e st1 => Raised e st1
    | Running st1 => Running st1
    end.
Proof.
  unfold before_loop, error_checked, fault_commands, force_commands, bind,
    gripper_error, get_time, get, emit, ret; simpl.
  destruct (w_error w (n_error (calls st))); simpl;
    rewrite ?send_send, ?send_nil; simpl.
  all: destruct (_get_gripper_parameters _) as [[] st1|e st1|st1];
    try reflexivity.
  all: destruct (_update_feedback w _ st1) as [[] st2|e st2|st2];
    try reflexivity.
  all: simpl; destruct (String.eqb (_type (self st2)) "electric"); simpl;
    rewrite ?send_nil; reflexivity.
Qed.

Lemma after_loop_ok target mf st :
  w_parameters w (n_parameters (calls st)) !! "moving_force" = Some mf ->
  after_loop w target false st
  = Ok tt (send [SetAborted (Some (snapshot target mf st))]
             (updated target mf (send [timeout_log st] st))).
Proof.
  intros Hmf. unfold after_loop, bind, get, emit, ret, timeout_log; simpl.
  rewrite (_update_feedback_ok target mf) by exact Hmf.
  reflexivity.
Qed.

(** ** The timeout *)


(** The timeout a goal runs with is the configured one. *)
Lemma _get_gripper_parameters_timeout st st1 t :
  _param (self st) !! (_ee (self st) +:+ "_timeout") = Some t ->
  _get_gripper_parameters st = Ok tt st1 ->
  _timeout (self st1) = t.
Proof.
  intros Ht.
  unfold _get_gripper_parameters, bind, get, subscript, modify, ret, raise,
    emit; simpl.
  rewrite Ht; simpl.
  destruct (String.eqb (_type (self st)) "electric"); simpl.
  2:{ intros H; injection H as <-. reflexivity. }
  repeat (match goal with
          | |- context [match ?o with Some _ => _ | None => _ end] =>
              destruct o; simpl
          end); intros H; try discriminate.
  injection H as <-. reflexivity.
Qed.

Lemma before_loop_timeout goal st locals st1 t :
  _param (self st) !! (_ee (self st) +:+ "_timeout") = Some t ->
  before_loop w goal st = Ok locals st1 ->
  _timeout (self st1) = t.
Proof.
  intros Ht. rewrite before_loop_eq. cbv zeta.
  destruct (_get_gripper_parameters (error_checked st)) as [[] st2|e st2|st2]
    eqn:Hg; try discriminate.
  pose proof (_get_gripper_parameters_timeout (error_checked st) st2 t Ht Hg)
    as Hto.
  destruct (_update_feedback_frame (cmd_position (command goal)) st2)
    as (_ & Hs & _).
  destruct (_update_feedback w (cmd_position (command goal)) st2)
    as [[] st3|e st3|st3]; try discriminate.
  intros H; injection H as _ <-. simpl in *.
  destruct (only_messages_change_fields _ _ Hs) as (_ & Hto3 & _).
  congruence.
Qed.


(** ** The timeout path *)

(** C7.  When the loop is left because its condition is false, the function
    logs the failure, runs [_update_feedback] once more (one more reading of
    the driver's parameters, two of the force) and reports [set_aborted]
    with the message that update has just computed; no [set_succeeded] was
    sent during the loop. *)
Theorem C7_timeout_aborts_with_fresh_feedback (n : nat)
    (goal : GripperCommandGoal) (target effort rate start mf : float)
    (st0 st st2 : State) :
  before_loop w goal st0 = Ok (target, effort, rate, start) st ->
  while_loop w n target start rate st = Ok LoopCondFalse st2 ->
  w_parameters w (n_parameters (calls st2)) !! "moving_force" = Some mf ->
  let st3 := updated target mf (send [timeout_log st2] st2) in
  let fresh := snapshot target mf st2 in
  _update_feedback w target (send [timeout_log st2] st2) = Ok tt st3 /\
  _on_gripper_action w n goal st0 = Ok tt (send [SetAborted (Some fresh)] st3) /\
  _feedback (self st3) = fresh /\
  result_message (self st3) = fresh /\
  n_parameters (calls st3) = S (n_parameters (calls st2)) /\
  n_force (calls st3) = S (S (n_force (calls st2))) /\
  (exists evs, quiet evs /\
     trace (send [SetAborted (Some fresh)] st3)
     = trace st ++ evs ++ [timeout_log st2; SetAborted (Some fresh)]).
Proof.
  intros Hb Hl Hmf st3 fresh.
  split; [apply _update_feedback_ok; exact Hmf|].
  split.
  { rewrite _on_gripper_action_eq, Hb, Hl. apply after_loop_ok. exact Hmf. }
  repeat (split; [reflexivity|]).
  destruct (while_loop_frame n target start rate st) as [_ Ht].
  rewrite Hl in Ht. destruct Ht as (evs & Hq & Ht).
  exists evs. split; [exact Hq|].
  simpl. rewrite Ht, <- !app_assoc. reflexivity.
Qed.

(** ** The commands of a whole goal *)

Lemma quiet_force_commands eff st : quiet (force_commands eff st).
Proof.
  unfold force_commands. destruct (String.eqb _ _); split;
    rewrite ?count_cons, ?count_nil; reflexivity.
Qed.

(** Before the loop, the only terminal outcome that can be reported is the
    [set_aborted()] of the error check. *)
Lemma before_loop_frame goal st :
  let r := before_loop w goal st in
  _type (self (res_state r)) = _type (self st) /\
  _action_name (self (res_state r)) = _action_name (self st) /\
  _default_effort (self (res_state r)) = _default_effort (self st) /\
  exists evs, quiet evs /\
    trace (res_state r) = trace st ++ fault_commands st ++ evs.
Proof.
  rewrite before_loop_eq. cbv zeta.
  destruct (_get_gripper_parameters_frame (error_checked st))
    as (_ & (Hty & _ & _ & Hname & Hde & _) & (evs1 & Hq1 & Ht1)).
  simpl in Hty, Hname, Hde, Ht1.
  destruct (_get_gripper_parameters (error_checked st)) as [[] st1|e st1|st1];
    simpl in *.
  2,3: (repeat (split; [assumption|]); exists evs1;
        split; [assumption|]; rewrite Ht1, <- app_assoc; reflexivity).
  destruct (_update_feedback_frame (cmd_position (command goal)) st1)
    as (Ht2 & Hs2 & _).
  destruct (only_messages_change_fields _ _ Hs2)
    as (Hty2 & _ & _ & Hn2 & Hde2 & _).
  destruct (_update_feedback w (cmd_position (command goal)) st1)
    as [[] st2|e st2|st2]; simpl in *.
  - repeat (split; [congruence|]).
    eexists. split; [apply quiet_app; [exact Hq1|apply quiet_force_commands]|].
    rewrite Ht2, Ht1, <- !app_assoc. reflexivity.
  - repeat (split; [congruence|]).
    exists evs1. split; [assumption|].
    rewrite Ht2, Ht1, <- app_assoc. reflexivity.
  - repeat (split; [congruence|]).
    exists evs1. split; [assumption|].
    rewrite Ht2, Ht1, <- app_assoc. reflexivity.
Qed.

(** After the loop: the log line, then [set_aborted] with the feedback
    message, unless the feedback update raises. *)
Lemma after_loop_frame target st :
  match after_loop w target false st with
  | Ok _ st' =>
      trace st' = trace st ++
        [timeout_log st; SetAborted (Some (_feedback (self st')))]
  | Raised _ st' => trace st' = trace st ++ [timeout_log st]
  | Running _ => False
  end.
Proof.
  destruct (w_parameters w (n_parameters (calls st)) !! "moving_force")
    as [mf|] eqn:Hmf.
  - rewrite (after_loop_ok target mf st Hmf). simpl.
    rewrite <- app_assoc. reflexivity.
  - unfold after_loop, bind, get, emit, ret; simpl.
    destruct (_update_feedback_raises target (send [timeout_log st] st))
      as (x & Hx & Ht & _); [exact Hmf|].
    unfold timeout_log in Hx. rewrite Hx. exact Ht.
Qed.

(** The commands of a goal, by outcome.  After those of the error check, a
    run that returns has reported exactly one terminal outcome, as its last
    command: [set_succeeded] or [set_aborted], each with the feedback
    message.  A run that raises or is still running has reported none. *)
Lemma _on_gripper_action_trace n goal st :
  let r := _on_gripper_action w n goal st in
  exists evs last,
    quiet evs /\
    trace (res_state r) = trace st ++ fault_commands st ++ evs ++ last /\
    match r with
    | Ok _ st' =>
        last = [SetSucceeded (_feedback (self st'))] \/
        last = [SetAborted (Some (_feedback (self st')))]
    | Raised _ _ | Running _ => last = []
    end.
Proof.
  cbv zeta. rewrite _on_gripper_action_eq.
  destruct (before_loop_frame goal st) as (_ & _ & _ & evs1 & Hq1 & Ht1).
  destruct (before_loop w goal st)
    as [[[[target eff] rate] start] st1|e st1|st1]; simpl in *.
  2,3: (exists evs1, []; split; [assumption|]; split; [|reflexivity];
        rewrite Ht1, app_nil_r; reflexivity).
  destruct (while_loop_frame n target start rate st1) as [_ Ht2].
  destruct (while_loop w n target start rate st1) as [[|] st2|e st2|st2];
    simpl in *.
  - destruct Ht2 as (evs2 & Hq2 & Ht2 & _).
    exists (evs1 ++ evs2), [SetSucceeded (_feedback (self st2))].
    split; [apply quiet_app; assumption|]. split; [|left; reflexivity].
    rewrite Ht2, Ht1, <- !app_assoc. reflexivity.
  - destruct Ht2 as (evs2 & Hq2 & Ht2).
    pose proof (after_loop_frame target st2) as Ht3.
    destruct (after_loop w target false st2) as [[] st3|e st3|st3];
      simpl in *; [| |contradiction].
    + exists (evs1 ++ evs2 ++ [timeout_log st2]),
        [SetAborted (Some (_feedback (self st3)))].
      split.
      { apply quiet_app; [assumption|]. apply quiet_app; [assumption|].
        split; rewrite count_cons, count_nil; reflexivity. }
      split; [|right; reflexivity].
      rewrite Ht3, Ht2, Ht1, <- !app_assoc. reflexivity.
    + exists (evs1 ++ evs2 ++ [timeout_log st2]), [].
      split.
      { apply quiet_app; [assumption|]. apply quiet_app; [assumption|].
        split; rewrite count_cons, count_nil; reflexivity. }
      split; [|reflexivity].
      rewrite Ht3, Ht2, Ht1, <- !app_assoc, app_nil_r. reflexivity.
  - destruct Ht2 as (evs2 & Hq2 & Ht2).
    exists (evs1 ++ evs2), []. split; [apply quiet_app; assumption|].
    split; [|reflexivity].
    rewrite Ht2, Ht1, <- !app_assoc, app_nil_r. reflexivity.
  - destruct Ht2 as (evs2 & Hq2 & Ht2).
    exists (evs1 ++ evs2), []. split; [apply quiet_app; assumption|].
    split; [|reflexivity].
    rewrite Ht2, Ht1, <- !app_assoc, app_nil_r. reflexivity.
Qed.

(** X18.  A goal accepted while the gripper reports no error, and whose run
    returns, is reported exactly one terminal outcome. *)
Lemma one_outcome_without_fault n goal st st' :
  w_error w (n_error (calls st)) = false ->
  _on_gripper_action w n goal st = Ok tt st' ->
  exists evs, trace st' = trace st ++ evs /\
    count is_succeeded evs + count is_aborted evs = 1.
Proof.
  intros Herr Hrun.
  destruct (_on_gripper_action_trace n goal st) as (evs & last & [Hs Ha] & Ht & Hl).
  rewrite Hrun in Ht, Hl. simpl in Ht.
  unfold fault_commands in Ht. rewrite Herr in Ht. simpl in Ht.
  exists (evs ++ last). split; [exact Ht|].
  rewrite !count_app, Hs, Ha.
  destruct Hl as [-> | ->]; rewrite !count_cons, !count_nil; reflexivity.
Qed.

(** ** Missing configuration keys *)

(** The key a failing resolution raises for is the first absent one in the
    order of the lookups: every requested key before it is present. *)
Lemma _get_gripper_parameters_first_missing st k :
  k ∈ requested_keys (self st) ->
  _param (self st) !! k = None ->
  exists k' st' pre post,
    requested_keys (self st) = pre ++ k' :: post /\
    Forall (fun j => is_Some (_param (self st) !! j)) pre /\
    _param (self st) !! k' = None /\
    _get_gripper_parameters st = Raised (KeyError k') st' /\
    trace st' = trace st /\
    absent_keys_retained (self st) (self st') /\
    (_param (self st) !! (_ee (self st) +:+ "_timeout") = None -> st' = st).
Proof.
  unfold requested_keys, _get_gripper_parameters, bind, get, subscript,
    modify, ret, raise, emit, absent_keys_retained; simpl.
  intros Hin Hk.
  destruct (_param (self st) !! (_ee (self st) +:+ "_timeout")) eqn:Ht; simpl.
  2:{ eexists (_ee (self st) +:+ "_timeout"), st, [], _.
      split; [reflexivity|]. split; [constructor|]. split; [exact Ht|].
      split; [reflexivity|]. split; [reflexivity|].
      split; [|reflexivity]. repeat split; intros; reflexivity. }
  destruct (String.eqb (_type (self st)) "electric"); simpl.
  2:{ apply list_elem_of_singleton in Hin. congruence. }
  destruct (_param (self st) !! (_ee (self st) +:+ "_goal")) eqn:Hd; simpl.
  2:{ eexists (_ee (self st) +:+ "_goal"), _,
        [_ee (self st) +:+ "_timeout"], _.
      split; [reflexivity|].
      split; [repeat constructor; rewrite Ht; eexists; reflexivity|].
      split; [exact Hd|]. split; [reflexivity|]. split; [reflexivity|].
      split; [|discriminate].
      repeat split; intros; (reflexivity || congruence). }
  destruct (_param (self st) !! (_ee (self st) +:+ "_velocity")) eqn:Hv; simpl.
  2:{ eexists (_ee (self st) +:+ "_velocity"), _,
        [_ee (self st) +:+ "_timeout"; _ee (self st) +:+ "_goal"], _.
      split; [reflexivity|].
      split; [repeat constructor; rewrite ?Ht, ?Hd; eexists; reflexivity|].
      split; [exact Hv|]. split; [reflexivity|]. split; [reflexivity|].
      split; [|discriminate].
      repeat split; intros; (reflexivity || congruence). }
  destruct (_param (self st) !! (_ee (self st) +:+ "_moving_force")) eqn:Hm;
    simpl.
  2:{ eexists (_ee (self st) +:+ "_moving_force"), _,
        [_ee (self st) +:+ "_timeout"; _ee (self st) +:+ "_goal";
         _ee (self st) +:+ "_velocity"], _.
      split; [reflexivity|].
      split; [repeat constructor; rewrite ?Ht, ?Hd, ?Hv; eexists;
              reflexivity|].
      split; [exact Hm|]. split; [reflexivity|]. split; [reflexivity|].
      split; [|discriminate].
      repeat split; intros; (reflexivity || congruence). }
  destruct (_param (self st) !! (_ee (self st) +:+ "_holding_force")) eqn:Hh;
    simpl.
  2:{ eexists (_ee (self st) +:+ "_holding_force"), _,
        [_ee (self st) +:+ "_timeout"; _ee (self st) +:+ "_goal";
         _ee (self st) +:+ "_velocity"; _ee (self st) +:+ "_moving_force"], _.
      split; [reflexivity|].
      split; [repeat constructor; rewrite ?Ht, ?Hd, ?Hv, ?Hm; eexists;
              reflexivity|].
      split; [exact Hh|]. split; [reflexivity|]. split; [reflexivity|].
      split; [|discriminate].
      repeat split; intros; (reflexivity || congruence). }
  exfalso.
  rewrite !elem_of_cons, elem_of_nil in Hin.
  destruct Hin as [->|[->|[->|[->|[->|[]]]]]]; congruence.
Qed.

(** C2, as the code has it.  When a configuration key the goal asks for is
    absent, the lookup of the first absent key, in the order of the lookups,
    raises [KeyError] and the exception leaves [_on_gripper_action]: nothing
    is sent after the commands of the error check (no [set_parameters], no
    loop, no feedback, no terminal outcome of the goal's run).  The
    parameters whose keys are absent keep the values they had, and when the
    absent key is the timeout, the first one read, the object is
    unchanged. *)
Theorem C2_missing_key_raises (n : nat) (goal : GripperCommandGoal)
    (st : State) (k : string) :
  k ∈ requested_keys (self st) ->
  _param (self st) !! k = None ->
  exists k' st',
    k' ∈ requested_keys (self st) /\ _param (self st) !! k' = None /\
    (exists pre post,
       requested_keys (self st) = pre ++ k' :: post /\
       Forall (fun j => is_Some (_param (self st) !! j)) pre) /\
    _on_gripper_action w n goal st = Raised (KeyError k') st' /\
    trace st' = trace st ++ fault_commands st /\
    absent_keys_retained (self st) (self st') /\
    (_param (self st) !! (_ee (self st) +:+ "_timeout") = None ->
     self st' = self st).
Proof.
  intros Hin Hk.
  destruct (_get_gripper_parameters_first_missing (error_checked st) k Hin Hk)
    as (k' & st' & pre & post & Hlist & Hpre & Hk' & Hraise & Ht & Hret & Hsame).
  simpl in Hlist, Hpre, Hk'.
  exists k', st'. split.
  { rewrite Hlist. apply elem_of_app. right. apply list_elem_of_here. }
  split; [exact Hk'|].
  split; [exists pre, post; split; assumption|].
  split; [|split; [|split]].
  - rewrite _on_gripper_action_eq, before_loop_eq. cbv zeta.
    rewrite Hraise. reflexivity.
  - rewrite Ht. reflexivity.
  - exact Hret.
  - intros Hnone. rewrite (Hsame Hnone). reflexivity.
Qed.

(** ** Grippers that are not electric *)






(** ** Feedback is a function of what the driver reports *)

(** C9.  While the driver reports the same position, force and parameters,
    two feedback updates in a row leave the same message (and the same
    object), and the message is the same from any two states of a server
    with the same type and dead band (for a gripper that is not electric,
    whose [reached_goal] the update does not assign, also the same previous
    [reached_goal]). *)
Theorem C9_feedback_idempotent (target p f mf : float)
    (ps : gmap string float) (st : State) :
  (forall i, w_position w i = p) ->
  (forall i, w_force w i = f) ->
  (forall i, w_parameters w i = ps) ->
  ps !! "moving_force" = Some mf ->
  exists st1 st2,
    _update_feedback w target st = Ok tt st1 /\
    _update_feedback w target st1 = Ok tt st2 /\
    _feedback (self st2) = _feedback (self st1) /\
    result_message (self st2) = result_message (self st1) /\
    self st2 = self st1 /\
    (forall sa,
       _type (self sa) = _type (self st) ->
       _dead_band (self sa) = _dead_band (self st) ->
       (_type (self st) = "electric" \/
        reached_goal (_feedback (self sa)) = reached_goal (_feedback (self st))) ->
       exists sa1, _update_feedback w target sa = Ok tt sa1 /\
                   _feedback (self sa1) = _feedback (self st1)).
Proof.
  intros Hp Hf Hps Hmf.
  assert (Hl : forall s, w_parameters w (n_parameters (calls s))
                         !! "moving_force" = Some mf).
  { intros s. rewrite Hps. exact Hmf. }
  exists (updated target mf st), (updated target mf (updated target mf st)).
  split; [apply _update_feedback_ok, Hl|].
  split; [apply _update_feedback_ok, Hl|].
  assert (Hsnap : snapshot target mf (updated target mf st)
                  = snapshot target mf st).
  { unfold snapshot. simpl. rewrite !Hp, !Hf.
    destruct (String.eqb (_type (self st)) "electric"); reflexivity. }
  split; [exact Hsnap|]. split; [exact Hsnap|]. split.
  { simpl. rewrite Hsnap. destruct st as [s c t]; destruct s; reflexivity. }
  intros sa Hty Hdb Hrg.
  exists (updated target mf sa). split; [apply _update_feedback_ok, Hl|].
  simpl. unfold snapshot. rewrite !Hp, !Hf, Hty, Hdb.
  destruct (String.eqb_spec (_type (self st)) "electric") as [E|E];
    [reflexivity|].
  destruct Hrg as [Hrg|Hrg]; [contradiction|]. rewrite Hrg. reflexivity.
Qed.

(** ** The default effort *)

Lemma after_loop_only_messages_change target st :
  only_messages_change (self st)
    (self (res_state (after_loop w target false st))).
Proof.
  unfold after_loop, bind, get, emit, ret; simpl.
  match goal with
  | |- context [_update_feedback w target ?s] =>
      destruct (_update_feedback_frame target s) as (_ & Hs & _);
      destruct (_update_feedback w target s) as [[] st1|e st1|st1]
  end; exact Hs.
Qed.

(** The constructor sets the default effort to 40.0 ... *)
Lemma __init___default_effort gripper parameters st0 st :
  __init__ w gripper parameters st0 = Ok tt st ->
  _default_effort (self st) = 40.0%float.
Proof.
  unfold __init__, bind, emit, gripper_error, gripper_calibrated,
    gripper_parameters, subscript, modify, ret, raise; simpl.
  destruct (w_error w _), (w_calibrated w _); simpl;
    destruct (String.eqb (w_type w) "electric"); simpl;
    repeat (match goal with
            | |- context [match ?o with Some _ => _ | None => _ end] =>
                destruct o; simpl
            end);
    intros H; inversion H; reflexivity.
Qed.

(** ... and no goal changes it. *)
Lemma _on_gripper_action_default_effort n goal st :
  _default_effort (self (res_state (_on_gripper_action w n goal st)))
  = _default_effort (self st).
Proof.
  rewrite _on_gripper_action_eq.
  destruct (before_loop_frame goal st) as (_ & _ & Hde & _).
  destruct (before_loop w goal st)
    as [[[[target eff] rate] start] st1|e st1|st1]; simpl in *;
    try exact Hde.
  destruct (while_loop_frame n target start rate st1) as [Hs _].
  destruct (only_messages_change_fields _ _ Hs) as (_ & _ & _ & _ & Hde2 & _).
  destruct (while_loop w n target start rate st1) as [[|] st2|e st2|st2];
    simpl in *; try congruence.
  destruct (only_messages_change_fields _ _
              (after_loop_only_messages_change target st2))
    as (_ & _ & _ & _ & Hde3 & _).
  congruence.
Qed.

(** * Further properties of the code *)

(** ** The constructor *)

Lemma new_server_eq gripper parameters :
  new_server w gripper parameters
  = let st0 := {| self := blank_object; calls := startup_calls;
                  trace := startup_commands w |} in
    let obj := constructed_object w gripper parameters in
    if String.eqb (w_type w) "electric" then
      match w_parameters w 0 !! "dead_zone" with
      | None => Raised (KeyError "dead_zone") st0
      | Some d =>
        match w_parameters w 0 !! "velocity" with
        | None => Raised (KeyError "velocity") st0
        | Some v =>
          match w_parameters w 0 !! "moving_force" with
          | None => Raised (KeyError "moving_force") st0
          | Some m =>
            match w_parameters w 0 !! "holding_force" with
            | None => Raised (KeyError "holding_force") st0
            | Some h =>
                Ok tt (with_self
                         (set_holding_force h (set_moving_force m
                            (set_velocity v (set_dead_band d obj)))) st0)
            end
          end
        end
      end
    else Ok tt (with_self obj st0).
Proof.
  unfold new_server, __init__, bind, emit, send, gripper_error,
    gripper_calibrated, gripper_parameters, subscript, modify, ret, raise,
    with_calls, with_self, startup_commands, startup_calls,
    constructed_object; simpl.
  destruct (w_error w 0); simpl; destruct (w_calibrated w 0); simpl;
    destruct (String.eqb (w_type w) "electric"); simpl; try reflexivity.
  all: destruct (w_parameters w 0 !! "dead_zone"); simpl; try reflexivity.
  all: destruct (w_parameters w 0 !! "velocity"); simpl; try reflexivity.
  all: destruct (w_parameters w 0 !! "moving_force"); simpl; try reflexivity.
  all: destruct (w_parameters w 0 !! "holding_force"); simpl; reflexivity.
Qed.

(** X1.  Whatever the driver reports and whether or not construction
    succeeds, the constructor sleeps 0.25 s, starts the action server, then
    reboots the gripper exactly when it reports an error and calibrates it
    exactly when it reports not calibrated, in this order, and sends nothing
    else; it asks the driver once each for its error flag, its calibration
    flag and its parameters. *)
Theorem X1_constructor_recovery (gripper : string)
    (parameters : gmap string float) :
  trace (res_state (new_server w gripper parameters))
  = [RospySleep 0.25%float; ServerStart]
    ++ (if w_error w 0 then [GripperReboot] else [])
    ++ (if w_calibrated w 0 then [] else [GripperCalibrate]) /\
  calls (res_state (new_server w gripper parameters)) = startup_calls.
Proof.
  rewrite new_server_eq. cbv zeta.
  destruct (String.eqb (w_type w) "electric"); [|split; reflexivity].
  destruct (w_parameters w 0 !! "dead_zone"); [|split; reflexivity].
  destruct (w_parameters w 0 !! "velocity"); [|split; reflexivity].
  destruct (w_parameters w 0 !! "moving_force"); [|split; reflexivity].
  destruct (w_parameters w 0 !! "holding_force"); split; reflexivity.
Qed.

(** X2.  Construction succeeds exactly when the gripper is not electric or
    the driver's parameters hold the four keys of an electric gripper;
    otherwise it raises [KeyError] for one of these keys, absent from the
    parameters.  A constructed server has the timeout 5.0, the default
    effort 40.0, fresh messages, the type the driver reports and, when
    electric, the driver's four parameters. *)
Theorem X2_constructor_outcome (gripper : string)
    (parameters : gmap string float) :
  (verdict (new_server w gripper parameters) = Returns tt <->
   (w_type w <> "electric" \/
    forall k, k ∈ init_keys -> is_Some (w_parameters w 0 !! k))) /\
  (forall e, verdict (new_server w gripper parameters) = Raises e ->
     w_type w = "electric" /\
     exists k, e = KeyError k /\ k ∈ init_keys /\
               w_parameters w 0 !! k = None) /\
  verdict (new_server w gripper parameters) <> StillRunning /\
  (forall st, new_server w gripper parameters = Ok tt st ->
     _ee (self st) = gripper +:+ "_gripper" /\
     _ns (self st)
       = "robot/end_effector/" +:+ (gripper +:+ "_gripper") +:+ "/gripper_action" /\
     _action_name (self st) = w_name w /\
     _type (self st) = w_type w /\
     _param (self st) = parameters /\
     _timeout (self st) = 5.0%float /\
     _default_effort (self st) = 40.0%float /\
     _feedback (self st) = fresh_message /\
     result_message (self st) = fresh_message /\
     (w_type w = "electric" ->
      w_parameters w 0 !! "dead_zone" = Some (_dead_band (self st)) /\
      w_parameters w 0 !! "velocity" = Some (_velocity (self st)) /\
      w_parameters w 0 !! "moving_force" = Some (_moving_force (self st)) /\
      w_parameters w 0 !! "holding_force" = Some (_holding_force (self st)))).
Proof.
  rewrite new_server_eq. cbv zeta. unfold init_keys.
  assert (Hall : forall P : string -> Prop,
            (forall k, k ∈ ["dead_zone"; "velocity"; "moving_force";
                            "holding_force"] -> P k)
            <-> P "dead_zone" /\ P "velocity" /\ P "moving_force"
                /\ P "holding_force").
  { intros P. split.
    - intros H. repeat split; apply H; repeat constructor.
    - intros (H1 & H2 & H3 & H4) k Hk.
      rewrite !elem_of_cons, elem_of_nil in Hk.
      destruct Hk as [->|[->|[->|[->|[]]]]]; assumption. }
  rewrite Hall.
  destruct (String.eqb_spec (w_type w) "electric") as [Hty|Hty].
  2:{ split; [split; [intros _; left; exact Hty|reflexivity]|].
      split; [discriminate|]. split; [discriminate|].
      intros st H. injection H as <-. simpl.
      do 9 (split; [reflexivity|]). intros; contradiction. }
  destruct (w_parameters w 0 !! "dead_zone") as [d|] eqn:Hd.
  2:{ split; [split; [discriminate|]|].
      { intros [Hc|(Hc & _)]; [contradiction|]. destruct Hc; discriminate. }
      split; [|split; discriminate].
      intros e He. injection He as <-. split; [exact Hty|].
      exists "dead_zone". repeat split; [repeat constructor|exact Hd]. }
  destruct (w_parameters w 0 !! "velocity") as [v|] eqn:Hv.
  2:{ split; [split; [discriminate|]|].
      { intros [Hc|(_ & Hc & _)]; [contradiction|]. destruct Hc; discriminate. }
      split; [|split; discriminate].
      intros e He. injection He as <-. split; [exact Hty|].
      exists "velocity". repeat split; [repeat constructor|exact Hv]. }
  destruct (w_parameters w 0 !! "moving_force") as [m|] eqn:Hm.
  2:{ split; [split; [discriminate|]|].
      { intros [Hc|(_ & _ & Hc & _)]; [contradiction|].
        destruct Hc; discriminate. }
      split; [|split; discriminate].
      intros e He. injection He as <-. split; [exact Hty|].
      exists "moving_force". repeat split; [repeat constructor|exact Hm]. }
  destruct (w_parameters w 0 !! "holding_force") as [h|] eqn:Hh.
  2:{ split; [split; [discriminate|]|].
      { intros [Hc|(_ & _ & _ & Hc)]; [contradiction|].
        destruct Hc; discriminate. }
      split; [|split; discriminate].
      intros e He. injection He as <-. split; [exact Hty|].
      exists "holding_force". repeat split; [repeat constructor|exact Hh]. }
  split.
  { split; [|reflexivity]. intros _. right. repeat split; eexists; reflexivity. }
  split; [discriminate|]. split; [discriminate|].
  intros st H. injection H as <-. simpl.
  do 9 (split; [reflexivity|]). intros _. repeat split; reflexivity.
Qed.

(** ** The effort a goal runs with *)

(** X3.  With the constructor's default effort, the effort a goal runs with
    is never -1.0 and never closer to zero than 0.0001, and resolving it a
    second time changes nothing. *)
Theorem X3_effective_effort_range (s : GripperActionServer) (e : float) :
  _default_effort s = 40.0%float ->
  (effective_effort s e =? -1.0)%float = false /\
  (PrimFloat.abs (effective_effort s e) <? 0.0001)%float = false /\
  effective_effort s (effective_effort s e) = effective_effort s e.
Proof.
  intros Hd. unfold effective_effort. rewrite Hd.
  destruct (PrimFloat.abs e <? 0.0001)%float eqn:E1.
  - repeat split; reflexivity.
  - destruct (e =? -1.0)%float eqn:E2.
    + repeat split; reflexivity.
    + rewrite E1, E2. repeat split; assumption.
Qed.

(** ** More on parameter resolution *)

(** What a successful resolution has done, by gripper type. *)
Lemma _get_gripper_parameters_inv st st1 :
  _get_gripper_parameters st = Ok tt st1 ->
  (_type (self st) <> "electric" /\
   exists t,
     _param (self st) !! (_ee (self st) +:+ "_timeout") = Some t /\
     st1 = with_self (set_timeout t (self st)) st) \/
  (_type (self st) = "electric" /\
   exists t d v m h,
     _param (self st) !! (_ee (self st) +:+ "_timeout") = Some t /\
     _param (self st) !! (_ee (self st) +:+ "_goal") = Some d /\
     _param (self st) !! (_ee (self st) +:+ "_velocity") = Some v /\
     _param (self st) !! (_ee (self st) +:+ "_moving_force") = Some m /\
     _param (self st) !! (_ee (self st) +:+ "_holding_force") = Some h /\
     st1 = send [SetParameters (param_update d v m h)]
             (with_self
                (set_holding_force h (set_moving_force m (set_velocity v
                   (set_dead_band d (set_timeout t (self st)))))) st)).
Proof.
  destruct (String.eqb_spec (_type (self st)) "electric") as [Hty|Hty].
  - destruct (_param (self st) !! (_ee (self st) +:+ "_timeout"))
      as [t|] eqn:Ht;
    [destruct (_param (self st) !! (_ee (self st) +:+ "_goal"))
       as [d|] eqn:Hd;
     [destruct (_param (self st) !! (_ee (self st) +:+ "_velocity"))
        as [v|] eqn:Hv;
      [destruct (_param (self st) !! (_ee (self st) +:+ "_moving_force"))
         as [m|] eqn:Hm;
       [destruct (_param (self st) !! (_ee (self st) +:+ "_holding_force"))
          as [h|] eqn:Hh|]|]|]|].
    1:{ rewrite (_get_gripper_parameters_electric st t d v m h)
          by assumption.
        intros H. injection H as <-. right. split; [exact Hty|].
        exists t, d, v, m, h. repeat (split; [reflexivity|]). reflexivity. }
    all: intros Hok; exfalso.
    all: match goal with
         | Hn : _param (self ?s) !! ?k = None |- _ =>
             destruct (_get_gripper_parameters_missing s k) as
               (k' & st' & _ & _ & Hr & _); [|exact Hn|congruence]
         end.
    all: unfold requested_keys; rewrite Hty; simpl; repeat constructor.
  - destruct (_param (self st) !! (_ee (self st) +:+ "_timeout"))
      as [t|] eqn:Ht.
    + rewrite (_get_gripper_parameters_other st t) by assumption.
      intros H. injection H as <-. left. split; [exact Hty|].
      exists t. split; reflexivity.
    + intros Hok. exfalso.
      destruct (_get_gripper_parameters_missing st
                  (_ee (self st) +:+ "_timeout")) as
        (k' & st' & _ & _ & Hr & _); [|exact Ht|congruence].
      unfold requested_keys. apply list_elem_of_here.
Qed.

(** X4.  After a successful resolution the object, the configuration and
    what the driver was told agree: the timeout is the configured one, and
    for an electric gripper one [set_parameters] was sent whose dictionary
    holds exactly the keys [dead_zone], [velocity], [moving_force] and
    [holding_force], with the values configured under [<ee>_goal],
    [<ee>_velocity], [<ee>_moving_force] and [<ee>_holding_force], which are
    also the object's attributes.  For any other type nothing is sent and
    only the timeout is assigned. *)
Theorem X4_resolution_agrees (st st1 : State) :
  _get_gripper_parameters st = Ok tt st1 ->
  _param (self st) !! (_ee (self st) +:+ "_timeout")
    = Some (_timeout (self st1)) /\
  calls st1 = calls st /\
  (_type (self st) = "electric" ->
   _param (self st) !! (_ee (self st) +:+ "_goal")
     = Some (_dead_band (self st1)) /\
   _param (self st) !! (_ee (self st) +:+ "_velocity")
     = Some (_velocity (self st1)) /\
   _param (self st) !! (_ee (self st) +:+ "_moving_force")
     = Some (_moving_force (self st1)) /\
   _param (self st) !! (_ee (self st) +:+ "_holding_force")
     = Some (_holding_force (self st1)) /\
   exists p : gmap string float,
     trace st1 = trace st ++ [SetParameters p] /\
     p !! "dead_zone" = Some (_dead_band (self st1)) /\
     p !! "velocity" = Some (_velocity (self st1)) /\
     p !! "moving_force" = Some (_moving_force (self st1)) /\
     p !! "holding_force" = Some (_holding_force (self st1)) /\
     forall k, is_Some (p !! k) -> k ∈ init_keys) /\
  (_type (self st) <> "electric" ->
   trace st1 = trace st /\
   self st1 = set_timeout (_timeout (self st1)) (self st)).
Proof.
  intros Hok.
  destruct (_get_gripper_parameters_inv st st1 Hok)
    as [(Hty & t & Ht & ->)|(Hty & t & d & v & m & h & Ht & Hd & Hv & Hm & Hh & ->)];
    simpl.
  - split; [exact Ht|]. split; [reflexivity|].
    split; [intros; contradiction|]. intros _. split; reflexivity.
  - split; [exact Ht|]. split; [reflexivity|].
    split; [|intros; contradiction]. intros _.
    repeat (split; [assumption|]).
    exists (param_update d v m h). split; [reflexivity|].
    unfold param_update, init_keys.
    repeat (split; [by simplify_map_eq|]).
    intros k [x Hx].
    rewrite !elem_of_cons, elem_of_nil.
    destruct (decide (k = "dead_zone")) as [->|N1]; [tauto|].
    destruct (decide (k = "velocity")) as [->|N2]; [tauto|].
    destruct (decide (k = "moving_force")) as [->|N3]; [tauto|].
    destruct (decide (k = "holding_force")) as [->|N4]; [tauto|].
    exfalso. rewrite !lookup_insert_ne, lookup_empty in Hx by congruence.
    discriminate.
Qed.

(** X5.  A resolution that fails is not undone: it raises [KeyError] for a
    requested key that is absent, sends nothing and makes no query, but
    every parameter read before the absent key already holds its configured
    value; the holding force, read last, is never assigned by a failing
    resolution. *)
Theorem X5_failed_resolution_is_partial (st st1 : State) (e : Exn) :
  _get_gripper_parameters st = Raised e st1 ->
  let cfg := _param (self st) in
  let ee := _ee (self st) in
  (exists k, e = KeyError k /\ k ∈ requested_keys (self st) /\
             cfg !! k = None) /\
  trace st1 = trace st /\ calls st1 = calls st /\
  (forall t, cfg !! (ee +:+ "_timeout") = Some t -> _timeout (self st1) = t) /\
  (forall t d, cfg !! (ee +:+ "_timeout") = Some t ->
     cfg !! (ee +:+ "_goal") = Some d -> _dead_band (self st1) = d) /\
  (forall t d v, cfg !! (ee +:+ "_timeout") = Some t ->
     cfg !! (ee +:+ "_goal") = Some d ->
     cfg !! (ee +:+ "_velocity") = Some v -> _velocity (self st1) = v) /\
  (forall t d v m, cfg !! (ee +:+ "_timeout") = Some t ->
     cfg !! (ee +:+ "_goal") = Some d ->
     cfg !! (ee +:+ "_velocity") = Some v ->
     cfg !! (ee +:+ "_moving_force") = Some m ->
     _moving_force (self st1) = m) /\
  _holding_force (self st1) = _holding_force (self st).
Proof.
  cbv zeta.
  unfold requested_keys, _get_gripper_parameters, bind, get, subscript,
    modify, ret, raise, emit; simpl.
  destruct (_param (self st) !! (_ee (self st) +:+ "_timeout")) eqn:Ht; simpl.
  2:{ intros H; injection H as <- <-.
      split; [eexists; repeat split; [apply list_elem_of_here|exact Ht]|].
      repeat split; intros; congruence. }
  destruct (String.eqb (_type (self st)) "electric"); simpl;
    [|discriminate].
  destruct (_param (self st) !! (_ee (self st) +:+ "_goal")) eqn:Hd; simpl.
  2:{ intros H; injection H as <- <-.
      split; [eexists; repeat split; [repeat constructor|exact Hd]|].
      repeat split; simpl; intros; congruence. }
  destruct (_param (self st) !! (_ee (self st) +:+ "_velocity")) eqn:Hv; simpl.
  2:{ intros H; injection H as <- <-.
      split; [eexists; repeat split; [repeat constructor|exact Hv]|].
      repeat split; simpl; intros; congruence. }
  destruct (_param (self st) !! (_ee (self st) +:+ "_moving_force")) eqn:Hm;
    simpl.
  2:{ intros H; injection H as <- <-.
      split; [eexists; repeat split; [repeat constructor|exact Hm]|].
      repeat split; simpl; intros; congruence. }
  destruct (_param (self st) !! (_ee (self st) +:+ "_holding_force")) eqn:Hh;
    simpl; [discriminate|].
  intros H; injection H as <- <-.
  split; [eexists; repeat split; [repeat constructor|exact Hh]|].
  repeat split; simpl; intros; congruence.
Qed.

(** X6.  Resolving the parameters again right after a successful
    resolution succeeds, leaves the object as it is and sends the driver the
    same dictionary again (nothing for a gripper that is not electric). *)
Theorem X6_resolution_idempotent (st st1 : State) :
  _get_gripper_parameters st = Ok tt st1 ->
  exists st2,
    _get_gripper_parameters st1 = Ok tt st2 /\
    self st2 = self st1 /\ calls st2 = calls st1 /\
    exists evs, trace st1 = trace st ++ evs /\ trace st2 = trace st1 ++ evs.
Proof.
  intros Hok.
  destruct (_get_gripper_parameters_inv st st1 Hok)
    as [(Hty & t & Ht & ->)|(Hty & t & d & v & m & h & Ht & Hd & Hv & Hm & Hh & ->)].
  - eexists. split.
    { apply (_get_gripper_parameters_other _ t); simpl; assumption. }
    simpl. split; [destruct st as [s c tr]; destruct s; reflexivity|].
    split; [reflexivity|]. exists []. rewrite !app_nil_r. split; reflexivity.
  - eexists. split.
    { apply (_get_gripper_parameters_electric _ t d v m h); simpl;
        assumption. }
    simpl. split; [destruct st as [s c tr]; destruct s; reflexivity|].
    split; [reflexivity|].
    exists [SetParameters (param_update d v m h)]. split; reflexivity.
Qed.

(** ** The commands of a goal, piece by piece *)

(** Parameter resolution sends nothing, or one [set_parameters]. *)
Lemma _get_gripper_parameters_commands st :
  trace (res_state (_get_gripper_parameters st)) = trace st \/
  exists p, trace (res_state (_get_gripper_parameters st))
            = trace st ++ [SetParameters p].
Proof.
  unfold _get_gripper_parameters, bind, get, subscript, modify, ret, raise,
    emit; simpl.
  destruct (_param (self st) !! (_ee (self st) +:+ "_timeout")); simpl;
    [|tauto].
  destruct (String.eqb (_type (self st)) "electric"); simpl; [|tauto].
  destruct (_param (self st) !! (_ee (self st) +:+ "_goal")); simpl;
    [|tauto].
  destruct (_param (self st) !! (_ee (self st) +:+ "_velocity")); simpl;
    [|tauto].
  destruct (_param (self st) !! (_ee (self st) +:+ "_moving_force")); simpl;
    [|tauto].
  destruct (_param (self st) !! (_ee (self st) +:+ "_holding_force")); simpl;
    [|tauto].
  right. eexists. reflexivity.
Qed.

(** The locals the loop runs with are the goal's position and 20 Hz. *)
Lemma before_loop_locals goal st target eff rate start st1 :
  before_loop w goal st = Ok (target, eff, rate, start) st1 ->
  target = cmd_position (command goal) /\ rate = 20.0%float /\
  eff = effective_effort (self st) (cmd_max_effort (command goal)).
Proof.
  rewrite before_loop_eq. cbv zeta.
  destruct (_get_gripper_parameters (error_checked st)) as [[] s1|e s1|s1];
    try discriminate.
  destruct (_update_feedback w (cmd_position (command goal)) s1)
    as [[] s2|e s2|s2]; try discriminate.
  intros H. injection H as <- <- <- _ _. repeat split.
Qed.

Section Chunks.

(** A property of command sequences that holds of each piece of a goal's
    run and is kept by concatenation holds of the run, up to its terminal
    outcome. *)
Variable P : list Event -> Prop.
Variable goal : GripperCommandGoal.

Hypothesis P_nil : P [].
Hypothesis P_app : forall a b, P a -> P b -> P (a ++ b).
Hypothesis P_fault : forall st, P (fault_commands st).
Hypothesis P_parameters : forall p, P [SetParameters p].
Hypothesis P_force : forall f, P [SetMovingForce f].
Hypothesis P_preempt : forall st, P (preempt_commands st).
Hypothesis P_tick :
  forall fb, P (tick_commands (cmd_position (command goal)) 20.0%float fb).
Hypothesis P_timeout_log : forall st, P [timeout_log st].

Lemma before_loop_chunks st :
  exists evs, P evs /\
    trace (res_state (before_loop w goal st)) = trace st ++ evs.
Proof.
  rewrite before_loop_eq. cbv zeta.
  assert (H1 : exists evs1, P evs1 /\
            trace (res_state (_get_gripper_parameters (error_checked st)))
            = trace st ++ evs1).
  { destruct (_get_gripper_parameters_commands (error_checked st))
      as [H|[p H]]; rewrite H; simpl.
    - exists (fault_commands st). split; [apply P_fault|reflexivity].
    - exists (fault_commands st ++ [SetParameters p]).
      split; [apply P_app; [apply P_fault|apply P_parameters]|].
      rewrite <- app_assoc. reflexivity. }
  destruct H1 as (evs1 & HP1 & Ht1).
  destruct (_get_gripper_parameters (error_checked st)) as [[] st1|e st1|st1];
    simpl in *; try (exists evs1; split; assumption).
  destruct (_update_feedback_frame (cmd_position (command goal)) st1)
    as (Ht2 & _).
  destruct (_update_feedback w (cmd_position (command goal)) st1)
    as [[] st2|e st2|st2]; simpl in *;
    try (exists evs1; split; [assumption|congruence]).
  exists (evs1 ++ force_commands
            (effective_effort (self st) (cmd_max_effort (command goal))) st2).
  split.
  - apply P_app; [assumption|]. unfold force_commands.
    destruct (String.eqb _ _); [apply P_force|apply P_nil].
  - rewrite Ht2, Ht1, <- app_assoc. reflexivity.
Qed.

Lemma while_loop_chunks n start : forall st,
  exists evs, P evs /\
    match while_loop w n (cmd_position (command goal)) start 20.0%float st with
    | Ok LoopReturn st' =>
        trace st' = trace st ++ evs ++ [SetSucceeded (_feedback (self st'))]
    | Ok LoopCondFalse st' | Raised _ st' | Running st' =>
        trace st' = trace st ++ evs
    end.
Proof.
  induction n as [|n IH]; intros st.
  - exists []. split; [apply P_nil|]. simpl. rewrite app_nil_r. reflexivity.
  - rewrite while_loop_S.
    destruct (keeps_going start st).
    2:{ exists []. split; [apply P_nil|]. simpl. rewrite app_nil_r.
        reflexivity. }
    destruct (loop_body_frame (cmd_position (command goal)) 20.0%float
                (clocked st)) as (_ & _ & Ht).
    destruct (loop_body w (cmd_position (command goal)) 20.0%float
                (clocked st)) as [[|] st1|e st1|st1];
      simpl in *; try contradiction.
    + destruct Ht as [Ht _].
      exists (preempt_commands (clocked st)). split; [apply P_preempt|].
      rewrite Ht, <- app_assoc. reflexivity.
    + destruct (IH st1) as (evs & HP & Ht1).
      exists ((preempt_commands (clocked st)
               ++ tick_commands (cmd_position (command goal)) 20.0%float
                    (_feedback (self st1))) ++ evs).
      split; [apply P_app; [apply P_app; [apply P_preempt|apply P_tick]|
                            assumption]|].
      destruct (while_loop w n (cmd_position (command goal)) start
                  20.0%float st1) as [[|] st2|e st2|st2];
        rewrite Ht1, Ht, <- !app_assoc; reflexivity.
    + exists (preempt_commands (clocked st)). split; [apply P_preempt|].
      rewrite Ht. reflexivity.
Qed.

Lemma _on_gripper_action_chunks n st :
  exists evs last, P evs /\ ending last /\
    trace (res_state (_on_gripper_action w n goal st))
    = trace st ++ evs ++ last.
Proof.
  rewrite _on_gripper_action_eq.
  destruct (before_loop_chunks st) as (evs1 & HP1 & Ht1).
  destruct (before_loop w goal st)
    as [[[[target eff] rate] start] st1|e st1|st1] eqn:Hb; simpl in *.
  2,3: (exists evs1, []; split; [assumption|]; split; [left; reflexivity|];
        rewrite Ht1, app_nil_r; reflexivity).
  destruct (before_loop_locals _ _ _ _ _ _ _ Hb) as (-> & -> & _).
  destruct (while_loop_chunks n start st1) as (evs2 & HP2 & Ht2).
  destruct (while_loop w n (cmd_position (command goal)) start 20.0%float st1)
    as [[|] st2|e st2|st2]; simpl in *.
  - exists (evs1 ++ evs2), [SetSucceeded (_feedback (self st2))].
    split; [apply P_app; assumption|].
    split; [right; eexists; left; reflexivity|].
    rewrite Ht2, Ht1, <- !app_assoc. reflexivity.
  - pose proof (after_loop_frame (cmd_position (command goal)) st2) as Ht3.
    destruct (after_loop w (cmd_position (command goal)) false st2)
      as [[] st3|e st3|st3]; simpl in *; [| |contradiction].
    + exists (evs1 ++ evs2 ++ [timeout_log st2]),
        [SetAborted (Some (_feedback (self st3)))].
      split; [apply P_app; [assumption|];
              apply P_app; [assumption|apply P_timeout_log]|].
      split; [right; eexists; right; reflexivity|].
      rewrite Ht3, Ht2, Ht1, <- !app_assoc. reflexivity.
    + exists (evs1 ++ evs2 ++ [timeout_log st2]), [].
      split; [apply P_app; [assumption|];
              apply P_app; [assumption|apply P_timeout_log]|].
      split; [left; reflexivity|].
      rewrite Ht3, Ht2, Ht1, <- !app_assoc, app_nil_r. reflexivity.
  - exists (evs1 ++ evs2), []. split; [apply P_app; assumption|].
    split; [left; reflexivity|].
    rewrite Ht2, Ht1, <- !app_assoc, app_nil_r. reflexivity.
  - exists (evs1 ++ evs2), []. split; [apply P_app; assumption|].
    split; [left; reflexivity|].
    rewrite Ht2, Ht1, <- !app_assoc, app_nil_r. reflexivity.
Qed.

End Chunks.

(** ** What a goal sends *)

Lemma paced_nil target : paced target [].
Proof. repeat split; constructor. Qed.

Lemma paced_app target a b :
  paced target a -> paced target b -> paced target (a ++ b).
Proof.
  intros (A1 & A2 & A3) (B1 & B2 & B3). unfold paced.
  rewrite !count_app. repeat split; [lia|lia|].
  apply Forall_app. split; assumption.
Qed.

(** A sequence without motion commands, feedback or sleep is paced. *)
Lemma paced_still target evs :
  Forall (fun e => is_command_position e = false /\ is_publish e = false /\
                   is_rate_sleep e = false) evs ->
  paced target evs.
Proof.
  induction 1 as [|e evs (H1 & H2 & H3) _ (I1 & I2 & I3)];
    [apply paced_nil|].
  unfold paced. rewrite !count_cons, H1, H2, H3. simpl.
  repeat split; [assumption|assumption|].
  constructor; [|assumption]. destruct e; try exact I; discriminate.
Qed.

(** X7.  In every run of a goal, whatever its fuel and outcome, the gripper
    is commanded exactly as often as feedback is published and as the loop
    sleeps; every position command carries the goal's position and does not
    block, and every sleep is at 20 Hz. *)
Theorem X7_commands_are_paced (n : nat) (goal : GripperCommandGoal)
    (st : State) :
  exists evs,
    trace (res_state (_on_gripper_action w n goal st)) = trace st ++ evs /\
    count is_command_position evs = count is_publish evs /\
    count is_publish evs = count is_rate_sleep evs /\
    Forall (aims_at (cmd_position (command goal))) evs.
Proof.
  destruct (_on_gripper_action_chunks
              (paced (cmd_position (command goal))) goal) with (n := n) (st := st)
    as (evs & last & HP & Hend & Ht).
  - apply paced_nil.
  - apply paced_app.
  - intros s. apply paced_still. unfold fault_commands.
    destruct (w_error _ _); repeat constructor.
  - intros p. apply paced_still. repeat constructor.
  - intros f. apply paced_still. repeat constructor.
  - intros s. apply paced_still. unfold preempt_commands.
    destruct (w_preempt _ _); repeat constructor.
  - intros fb. unfold paced, tick_commands.
    rewrite !count_cons, !count_nil. simpl.
    repeat split; repeat constructor.
  - intros s. apply paced_still. repeat constructor.
  - exists (evs ++ last). split; [exact Ht|].
    apply (paced_app _ evs last HP). apply paced_still.
    destruct Hend as [->|(fb & [->| ->])]; repeat constructor.
Qed.

(** X8.  When the client never asks for preemption, no run of a goal sends
    [stop()]. *)
Theorem X8_no_stop_without_preempt (n : nat) (goal : GripperCommandGoal)
    (st : State) :
  (forall i, w_preempt w i = false) ->
  count is_stop (trace (res_state (_on_gripper_action w n goal st)))
  = count is_stop (trace st).
Proof.
  intros Hpre.
  destruct (_on_gripper_action_chunks
              (fun evs => count is_stop evs = 0) goal) with (n := n) (st := st)
    as (evs & last & HP & Hend & Ht).
  - apply count_nil.
  - intros a b Ha Hb. rewrite count_app. lia.
  - intros s. unfold fault_commands.
    destruct (w_error _ _); rewrite ?count_cons, ?count_nil; reflexivity.
  - intros p. rewrite count_cons, count_nil. reflexivity.
  - intros f. rewrite count_cons, count_nil. reflexivity.
  - intros s. unfold preempt_commands. rewrite Hpre. apply count_nil.
  - intros fb. unfold tick_commands. rewrite !count_cons, count_nil.
    reflexivity.
  - intros s. unfold timeout_log. rewrite count_cons, count_nil. reflexivity.
  - rewrite Ht, !count_app, HP.
    destruct Hend as [->|(fb & [->| ->])];
      rewrite ?count_cons, ?count_nil; simpl; lia.
Qed.

(** X9.  A goal accepted while the gripper reports an error, and whose run
    returns, is reported two terminal outcomes: [set_aborted()] right after
    the log line of the error check, and one more, [set_succeeded] or
    [set_aborted] with the result, as the last command. *)
Theorem X9_fault_reports_twice (n : nat) (goal : GripperCommandGoal)
    (st st' : State) :
  w_error w (n_error (calls st)) = true ->
  _on_gripper_action w n goal st = Ok tt st' ->
  exists evs last,
    trace st'
    = trace st
      ++ [LogErr (_action_name (self st) +:+
                  ": Gripper error - please restart action server.");
          SetAborted None]
      ++ evs ++ last /\
    quiet evs /\
    (last = [SetSucceeded (_feedback (self st'))] \/
     last = [SetAborted (Some (_feedback (self st')))]) /\
    count is_succeeded (trace st') + count is_aborted (trace st')
    = count is_succeeded (trace st) + count is_aborted (trace st) + 2.
Proof.
  intros Herr Hrun.
  destruct (_on_gripper_action_trace n goal st)
    as (evs & last & [Hs Ha] & Ht & Hl).
  rewrite Hrun in Ht, Hl. simpl in Ht.
  unfold fault_commands in Ht. rewrite Herr in Ht.
  exists evs, last. split; [exact Ht|]. split; [split; assumption|].
  split; [exact Hl|].
  rewrite Ht, !count_app, Hs, Ha, !count_cons, !count_nil.
  destruct Hl as [-> | ->]; rewrite !count_cons, !count_nil; simpl; lia.
Qed.

(** ** What the result of a tick says *)

(** X10.  For an electric gripper whose readings do not change between the
    feedback update and the convergence check of a tick, the message agrees
    with the decision: when the tick reports success the result says
    [stalled] or [reached_goal], and when it does not, the feedback it
    publishes says neither. *)
Theorem X10_result_says_why (target rate mf : float) (st : State) :
  _type (self st) = "electric" ->
  w_parameters w (n_parameters (calls st)) !! "moving_force" = Some mf ->
  w_parameters w (S (n_parameters (calls st))) !! "moving_force" = Some mf ->
  w_force w (S (S (n_force (calls st)))) = w_force w (S (n_force (calls st))) ->
  w_position w (S (S (n_position (calls st))))
    = w_position w (S (n_position (calls st))) ->
  match rest_of_tick w target rate st with
  | Ok true st' =>
      stalled (result_message (self st'))
      || reached_goal (result_message (self st')) = true /\
      trace st' = trace st ++ [SetSucceeded (result_message (self st'))]
  | Ok false st' =>
      stalled (_feedback (self st')) = false /\
      reached_goal (_feedback (self st')) = false /\
      trace st' = trace st ++ tick_commands target rate (_feedback (self st'))
  | Raised _ _ | Running _ => False
  end.
Proof.
  intros Hty H1 H2 Hf Hp.
  assert (Hc : converged target mf (updated target mf st)
               = stalled (snapshot target mf st)
                 || reached_goal (snapshot target mf st)).
  { unfold converged, snapshot. simpl. rewrite Hty. simpl.
    rewrite Hf, Hp. reflexivity. }
  destruct (converged target mf (updated target mf st)) eqn:E.
  - rewrite (rest_of_tick_converged target rate mf mf) by assumption.
    simpl. split; [symmetry; exact Hc|reflexivity].
  - rewrite (rest_of_tick_not_converged target rate mf mf) by assumption.
    simpl. symmetry in Hc. apply orb_false_iff in Hc.
    destruct Hc as [Hs Hr]. repeat split; assumption.
Qed.

(** ** An electric goal, from the configuration to the timeout *)

Lemma before_loop_electric goal st t d v m h mf :
  _type (self st) = "electric" ->
  _param (self st) !! (_ee (self st) +:+ "_timeout") = Some t ->
  _param (self st) !! (_ee (self st) +:+ "_goal") = Some d ->
  _param (self st) !! (_ee (self st) +:+ "_velocity") = Some v ->
  _param (self st) !! (_ee (self st) +:+ "_moving_force") = Some m ->
  _param (self st) !! (_ee (self st) +:+ "_holding_force") = Some h ->
  w_parameters w (n_parameters (calls st)) !! "moving_force" = Some mf ->
  before_loop w goal st
  = Ok (cmd_position (command goal),
        effective_effort (self st) (cmd_max_effort (command goal)),
        20.0%float, w_time w (n_time (calls st)))
       (electric_entry goal t d v m h mf st).
Proof.
  intros Hty Ht Hd Hv Hm Hh Hmf.
  rewrite before_loop_eq. cbv zeta.
  rewrite (_get_gripper_parameters_electric (error_checked st) t d v m h)
    by assumption.
  rewrite (_update_feedback_ok (cmd_position (command goal)) mf)
    by exact Hmf.
  unfold electric_entry, force_commands. simpl. rewrite Hty. reflexivity.
Qed.

(** X11.  What an electric goal does before its first tick when every
    configuration key is present: after the commands of the error check it
    sends [set_parameters] with the configured values and then
    [set_moving_force] with the goal's effort, so the driver's moving force is
    the goal's effort while the object keeps the configured one; the loop
    starts with the configured timeout and dead band, the goal's position,
    20 Hz and the clock reading taken after the first feedback update. *)
Theorem X11_electric_setup (goal : GripperCommandGoal) (st : State)
    (t d v m h mf : float) :
  _type (self st) = "electric" ->
  _param (self st) !! (_ee (self st) +:+ "_timeout") = Some t ->
  _param (self st) !! (_ee (self st) +:+ "_goal") = Some d ->
  _param (self st) !! (_ee (self st) +:+ "_velocity") = Some v ->
  _param (self st) !! (_ee (self st) +:+ "_moving_force") = Some m ->
  _param (self st) !! (_ee (self st) +:+ "_holding_force") = Some h ->
  w_parameters w (n_parameters (calls st)) !! "moving_force" = Some mf ->
  let eff := effective_effort (self st) (cmd_max_effort (command goal)) in
  exists st1,
    before_loop w goal st
    = Ok (cmd_position (command goal), eff, 20.0%float,
          w_time w (n_time (calls st))) st1 /\
    trace st1
    = trace st ++ fault_commands st
      ++ [SetParameters (param_update d v m h); SetMovingForce eff] /\
    _timeout (self st1) = t /\ _dead_band (self st1) = d /\
    _velocity (self st1) = v /\ _moving_force (self st1) = m /\
    _holding_force (self st1) = h /\
    _type (self st1) = "electric" /\
    n_time (calls st1) = S (n_time (calls st)) /\
    result_message (self st1) = _feedback (self st1).
Proof.
  intros Hty Ht Hd Hv Hm Hh Hmf eff.
  exists (electric_entry goal t d v m h mf st).
  split; [apply before_loop_electric; assumption|].
  simpl. rewrite <- !app_assoc. repeat split. exact Hty.
Qed.

(** An electric gripper that neither pushes harder than the threshold nor
    comes within the dead band leaves the loop by its condition, once a
    clock reading is past the deadline. *)
Lemma electric_loop_times_out k target start rate mf : forall st,
  _type (self st) = "electric" ->
  (_timeout (self st) <? 0.0)%float = false ->
  (forall i, w_parameters w i !! "moving_force" = Some mf) ->
  (forall i, (mf <? w_force w i)%float = false) ->
  (forall i, (PrimFloat.abs (w_position w i - target)
                <? _dead_band (self st))%float = false) ->
  (w_time w (n_time (calls st) + k) - start <? _timeout (self st))%float
    = false ->
  exists st', while_loop w (S k) target start rate st = Ok LoopCondFalse st'.
Proof.
  induction k as [|k IH]; intros st Hty Hneg Hpar Hforce Hpos Hclock.
  - rewrite Nat.add_0_r in Hclock.
    rewrite while_loop_S. unfold keeps_going. rewrite Hclock, Hneg. simpl.
    eexists. reflexivity.
  - rewrite while_loop_S.
    destruct (keeps_going start st); [|eexists; reflexivity].
    rewrite loop_body_eq.
    rewrite (rest_of_tick_not_converged target rate mf mf);
      try (simpl; solve [assumption | apply Hpar]).
    + apply IH; simpl; try assumption.
      rewrite <- Nat.add_succ_r. exact Hclock.
    + unfold converged. simpl. rewrite Hforce, Hpos. reflexivity.
Qed.

(** X12.  An electric goal times out.  When every configuration key is
    present, the timeout is not negative, the driver's moving force is
    never exceeded, the position never comes within the configured dead band
    of the target and some clock reading of the loop is past the deadline,
    the run returns: it reports no success, its last command is
    [set_aborted] with the result, and the result says neither [stalled] nor
    [reached_goal]. *)
Theorem X12_electric_goal_times_out (goal : GripperCommandGoal) (st : State)
    (k : nat) (t d v m h mf : float) :
  _type (self st) = "electric" ->
  _param (self st) !! (_ee (self st) +:+ "_timeout") = Some t ->
  _param (self st) !! (_ee (self st) +:+ "_goal") = Some d ->
  _param (self st) !! (_ee (self st) +:+ "_velocity") = Some v ->
  _param (self st) !! (_ee (self st) +:+ "_moving_force") = Some m ->
  _param (self st) !! (_ee (self st) +:+ "_holding_force") = Some h ->
  (t <? 0.0)%float = false ->
  (forall i, w_parameters w i !! "moving_force" = Some mf) ->
  (forall i, (mf <? w_force w i)%float = false) ->
  (forall i, (PrimFloat.abs (w_position w i - cmd_position (command goal))
                <? d)%float = false) ->
  (w_time w (S (n_time (calls st)) + k) - w_time w (n_time (calls st))
     <? t)%float = false ->
  exists st3 r,
    _on_gripper_action w (S k) goal st
    = Ok tt (send [SetAborted (Some r)] st3) /\
    result_message (self st3) = r /\
    stalled r = false /\ reached_goal r = false /\
    count is_succeeded (trace st3) = count is_succeeded (trace st).
Proof.
  intros Hty Ht Hd Hv Hm Hh Hneg Hpar Hforce Hpos Hclock.
  rewrite _on_gripper_action_eq.
  rewrite (before_loop_electric goal st t d v m h mf) by auto.
  destruct (electric_loop_times_out k (cmd_position (command goal))
              (w_time w (n_time (calls st))) 20.0%float mf
              (electric_entry goal t d v m h mf st))
    as [st2 Hloop]; try assumption.
  destruct (while_loop_frame (S k) (cmd_position (command goal))
              (w_time w (n_time (calls st))) 20.0%float
              (electric_entry goal t d v m h mf st)) as [Hs Htr].
  rewrite Hloop in Hs, Htr |- *. simpl in Hs, Htr.
  destruct (only_messages_change_fields _ _ Hs) as (Hty2 & _ & Hdb2 & _).
  simpl in Hty2, Hdb2.
  rewrite (after_loop_ok (cmd_position (command goal)) mf st2 (Hpar _)).
  eexists _, _. split; [reflexivity|]. split; [reflexivity|].
  split; [apply Hforce|]. split.
  - unfold snapshot. rewrite Hty2, Hty, Hdb2. apply Hpos.
  - destruct Htr as (evs & [Hq _] & Htr). simpl.
    rewrite Htr. simpl.
    unfold fault_commands, timeout_log.
    destruct (w_error w (n_error (calls st)));
      rewrite !count_app, !count_cons, !count_nil, Hq; simpl; lia.
Qed.


(** ** A goal that cannot end *)

Lemma other_loop_runs_forever n target start rate : forall st,
  _type (self st) <> "electric" ->
  (_timeout (self st) <? 0.0)%float = true ->
  (forall i, is_Some (w_parameters w i !! "moving_force")) ->
  exists st', while_loop w n target start rate st = Running st'.
Proof.
  induction n as [|n IH]; intros st Hty Hneg Hpar.
  - eexists. reflexivity.
  - rewrite while_loop_S. unfold keeps_going. rewrite Hneg, orb_true_r.
    destruct (Hpar (n_parameters (calls st))) as [mf Hmf].
    rewrite loop_body_eq.
    rewrite (rest_of_tick_other target rate mf) by assumption.
    apply IH; simpl; assumption.
Qed.

(** X13.  A goal for a gripper that is not electric whose configured
    timeout is negative never ends: whatever the fuel, whatever the clock
    and whatever the client's preempt requests, the run is still in the
    loop (provided the driver's parameters hold ['moving_force']) and has
    reported no terminal outcome after the commands of the error check. *)
Theorem X13_unbounded_goal_never_ends (goal : GripperCommandGoal)
    (st : State) (t : float) :
  _type (self st) <> "electric" ->
  _param (self st) !! (_ee (self st) +:+ "_timeout") = Some t ->
  (t <? 0.0)%float = true ->
  (forall i, is_Some (w_parameters w i !! "moving_force")) ->
  forall n,
    verdict (_on_gripper_action w n goal st) = StillRunning /\
    exists evs, quiet evs /\
      trace (res_state (_on_gripper_action w n goal st))
      = trace st ++ fault_commands st ++ evs.
Proof.
  intros Hty Hcfg Hneg Hpar n.
  assert (Hv : verdict (_on_gripper_action w n goal st) = StillRunning).
  { rewrite _on_gripper_action_eq, before_loop_eq. cbv zeta.
    rewrite (_get_gripper_parameters_other (error_checked st) t)
      by assumption.
    destruct (Hpar (n_parameters (calls st))) as [mf Hmf].
    rewrite (_update_feedback_ok (cmd_position (command goal)) mf)
      by exact Hmf.
    match goal with
    | |- context [while_loop w n ?tg ?start ?rate ?s0] =>
        destruct (other_loop_runs_forever n tg start rate s0) as [st' Hrun]
    end; try assumption.
    rewrite Hrun. reflexivity. }
  split; [exact Hv|].
  destruct (_on_gripper_action_trace n goal st)
    as (evs & last & Hq & Ht & Hl).
  destruct (_on_gripper_action w n goal st); try discriminate.
  subst last. exists evs. split; [exact Hq|].
  rewrite Ht, app_nil_r. reflexivity.
Qed.

(** ** What a goal leaves alone *)

(** X14.  Whatever its fuel and outcome, a goal changes neither the
    gripper's type, nor the end-effector name, the configuration, the action
    name or the default effort; so the next goal asks the configuration for
    the same keys. *)
Theorem X14_goal_keeps_identity (n : nat) (goal : GripperCommandGoal)
    (st : State) :
  let s' := self (res_state (_on_gripper_action w n goal st)) in
  _type s' = _type (self st) /\ _ee s' = _ee (self st) /\
  _param s' = _param (self st) /\
  _action_name s' = _action_name (self st) /\
  _default_effort s' = _default_effort (self st) /\
  requested_keys s' = requested_keys (self st).
Proof.
  cbv zeta.
  assert (Hfive : forall s',
            _type s' = _type (self st) -> _ee s' = _ee (self st) ->
            _param s' = _param (self st) ->
            _action_name s' = _action_name (self st) ->
            _default_effort s' = _default_effort (self st) ->
            _type s' = _type (self st) /\ _ee s' = _ee (self st) /\
            _param s' = _param (self st) /\
            _action_name s' = _action_name (self st) /\
            _default_effort s' = _default_effort (self st) /\
            requested_keys s' = requested_keys (self st)).
  { intros s' H1 H2 H3 H4 H5. repeat (split; [assumption|]).
    unfold requested_keys. rewrite H1, H2. reflexivity. }
  assert (Hstep : forall s1 s2,
            only_messages_change s1 s2 ->
            _type s2 = _type s1 /\ _ee s2 = _ee s1 /\ _param s2 = _param s1 /\
            _action_name s2 = _action_name s1 /\
            _default_effort s2 = _default_effort s1).
  { intros s1 s2 H.
    destruct (only_messages_change_fields _ _ H)
      as (A & _ & _ & B & C & D & E).
    repeat split; assumption. }
  rewrite _on_gripper_action_eq, before_loop_eq. cbv zeta.
  destruct (_get_gripper_parameters_frame (error_checked st))
    as (_ & (G1 & G2 & G3 & G4 & G5 & _) & _).
  simpl in G1, G2, G3, G4, G5.
  destruct (_get_gripper_parameters (error_checked st)) as [[] st1|e st1|st1];
    simpl in *; try (apply Hfive; assumption).
  destruct (_update_feedback_frame (cmd_position (command goal)) st1)
    as (_ & Hs2 & _).
  destruct (Hstep _ _ Hs2) as (U1 & U2 & U3 & U4 & U5).
  destruct (_update_feedback w (cmd_position (command goal)) st1)
    as [[] st2|e st2|st2]; simpl in *; try (apply Hfive; congruence).
  match goal with
  | |- context [while_loop w n ?tg ?start ?rate ?s0] =>
      destruct (while_loop_frame n tg start rate s0) as [Hs3 _];
      destruct (while_loop w n tg start rate s0) as [[|] st3|e st3|st3]
  end; simpl in *;
    destruct (Hstep _ _ Hs3) as (L1 & L2 & L3 & L4 & L5);
    try (apply Hfive; congruence).
  destruct (Hstep _ _ (after_loop_only_messages_change
                         (cmd_position (command goal)) st3))
    as (A1 & A2 & A3 & A4 & A5).
  destruct (after_loop w (cmd_position (command goal)) false st3)
    as [[] st4|e st4|st4]; simpl in *; apply Hfive; congruence.
Qed.

(** ** The result is the feedback object *)

(** X15.  Once [self._result] denotes the feedback object (as it does after
    any completed feedback update), a feedback update that fails on the
    driver's missing ['moving_force'] has already changed the result: its
    position and effort are the new readings, while [stalled] and
    [reached_goal] are the old ones. *)
Theorem X15_failed_update_shows_in_result (target : float) (st : State) :
  _result (self st) = SharesFeedback ->
  w_parameters w (n_parameters (calls st)) !! "moving_force" = None ->
  exists st',
    _update_feedback w target st = Raised (KeyError "moving_force") st' /\
    position (result_message (self st')) = w_position w (n_position (calls st)) /\
    effort (result_message (self st')) = w_force w (n_force (calls st)) /\
    stalled (result_message (self st')) = stalled (result_message (self st)) /\
    reached_goal (result_message (self st'))
      = reached_goal (result_message (self st)) /\
    trace st' = trace st.
Proof.
  intros Hres Hmf.
  unfold _update_feedback, bind, gripper_position, gripper_force,
    gripper_parameters, subscript, modify, get, ret, raise, with_calls; simpl.
  rewrite Hmf; simpl.
  eexists. split; [reflexivity|].
  unfold result_message; simpl. rewrite Hres. repeat split.
Qed.

(** ** Ticks *)

(** X16.  The loop polls the preempt flag once per tick and reads the clock
    once per evaluation of its condition, and commands the gripper once per
    tick that ends without success: when the loop is left by its condition
    (or is still running) the position commands are as many as the ticks and
    the clock was read once more (not when still running); when it is left
    by the [return] or by an exception, the last tick sent no position
    command. *)
Theorem X16_tick_accounting (n : nat) (target start rate : float) :
  forall st,
  exists evs ticks,
    let r := while_loop w n target start rate st in
    trace (res_state r) = trace st ++ evs /\
    n_preempt (calls (res_state r)) = n_preempt (calls st) + ticks /\
    match r with
    | Ok LoopReturn st' | Raised _ st' =>
        count is_command_position evs + 1 = ticks /\
        n_time (calls st') = n_time (calls st) + ticks
    | Ok LoopCondFalse st' =>
        count is_command_position evs = ticks /\
        n_time (calls st') = n_time (calls st) + ticks + 1
    | Running st' =>
        count is_command_position evs = ticks /\
        n_time (calls st') = n_time (calls st) + ticks
    end.
Proof.
  induction n as [|n IH]; intros st; cbv zeta.
  - exists [], 0. simpl. rewrite app_nil_r, count_nil. repeat split; lia.
  - rewrite while_loop_S.
    destruct (keeps_going start st).
    2:{ exists [], 0. simpl. rewrite app_nil_r, count_nil.
        repeat split; lia. }
    destruct (loop_body_frame target rate (clocked st))
      as ([_ Hn] & Hp & Ht).
    assert (Hpc : count is_command_position (preempt_commands (clocked st))
                  = 0).
    { unfold preempt_commands. destruct (w_preempt _ _);
        rewrite ?count_cons, ?count_nil; reflexivity. }
    destruct (loop_body w target rate (clocked st)) as [[|] st1|e st1|st1];
      simpl in *; try contradiction.
    + destruct Ht as [Ht _].
      exists (preempt_commands (clocked st)
              ++ [SetSucceeded (_feedback (self st1))]), 1.
      rewrite Ht, <- app_assoc, count_app, Hpc, count_cons, count_nil.
      simpl. repeat split; lia.
    + destruct (IH st1) as (evs & ticks & Ht1 & Hp1 & Hm). cbv zeta in *.
      exists ((preempt_commands (clocked st)
               ++ tick_commands target rate (_feedback (self st1))) ++ evs),
        (S ticks).
      rewrite Ht1, Ht, Hp1, Hp, <- !app_assoc.
      split; [reflexivity|]. split; [lia|].
      unfold tick_commands.
      rewrite !count_app, Hpc, !count_cons, count_nil. simpl.
      destruct (while_loop w n target start rate st1)
        as [[|] st2|e2 st2|st2]; simpl in *; lia.
    + exists (preempt_commands (clocked st)), 1.
      rewrite Ht, Hpc. simpl. repeat split; lia.
Qed.

(** ** A timeout that is not a number *)

Lemma ltb_nan_r (x : float) : (x <? nan)%float = false.
Proof.
  rewrite ltb_spec. change (Prim2SF nan) with S754_nan.
  destruct (Prim2SF x) as [[]|[]| |[] ? ?]; reflexivity.
Qed.

(** X17.  When the configured timeout is NaN, a goal that reaches the loop
    leaves it by its condition at the first evaluation, whatever the clock
    reads: no tick runs (the preempt flag is not polled, nothing is
    commanded or published) and the goal is reported [set_aborted] with a
    fresh feedback message. *)
Theorem X17_nan_timeout_aborts_at_once (n : nat) (goal : GripperCommandGoal)
    (target eff rate start mf : float) (st st1 : State) :
  _param (self st) !! (_ee (self st) +:+ "_timeout") = Some nan ->
  before_loop w goal st = Ok (target, eff, rate, start) st1 ->
  w_parameters w (n_parameters (calls st1)) !! "moving_force" = Some mf ->
  let st2 := updated target mf (send [timeout_log st1] (clocked st1)) in
  let r := snapshot target mf (clocked st1) in
  _on_gripper_action w (S n) goal st = Ok tt (send [SetAborted (Some r)] st2) /\
  trace (send [SetAborted (Some r)] st2)
    = trace st1 ++ [timeout_log st1; SetAborted (Some r)] /\
  n_preempt (calls st2) = n_preempt (calls st1) /\
  n_time (calls st2) = S (n_time (calls st1)).
Proof.
  intros Hcfg Hb Hmf st2 r.
  pose proof (before_loop_timeout _ _ _ _ _ Hcfg Hb) as Hnan.
  split; [|split; [|split; reflexivity]].
  - rewrite _on_gripper_action_eq, Hb, while_loop_S.
    unfold keeps_going. rewrite Hnan, ltb_nan_r. simpl.
    apply (after_loop_ok target mf (clocked st1)). exact Hmf.
  - simpl. rewrite <- app_assoc. reflexivity.
Qed.

End Verification.

(** * The statements on the test benches *)

(** ** One terminal outcome per goal *)

(** C1 fails on the code.  An electric gripper reports an error when the
    goal arrives: [set_aborted()] is sent (line 138), the function goes on,
    and the first tick sends [set_succeeded] for the same goal.  When the
    gripper is stuck instead, the same goal is aborted twice. *)
Theorem C1_fault_reports_two_outcomes :
  w_error fault_world (n_error (calls (booted fault_world (left_config 5.0%float))))
    = true /\
  verdict (_on_gripper_action fault_world 1 close_goal
             (booted fault_world (left_config 5.0%float))) = Returns tt /\
  trace (res_state (_on_gripper_action fault_world 1 close_goal
                      (booted fault_world (left_config 5.0%float))))
  = [RospySleep 0.25%float; ServerStart;
     LogErr "/gripper_action_server: Gripper error - please restart action server.";
     SetAborted None;
     SetParameters (param_update 5.0%float 50.0%float 30.0%float 30.0%float);
     SetMovingForce 40.0%float;
     SetSucceeded {| position := 100.0%float; effort := 50.0%float;
                     stalled := true; reached_goal := false |}] /\
  trace (res_state (_on_gripper_action stuck_fault_world 1 close_goal
                      (booted stuck_fault_world (left_config 1.0%float))))
  = [RospySleep 0.25%float; ServerStart;
     LogErr "/gripper_action_server: Gripper error - please restart action server.";
     SetAborted None;
     SetParameters (param_update 5.0%float 50.0%float 30.0%float 30.0%float);
     SetMovingForce 40.0%float;
     LogErr "/gripper_action_server: Gripper Command Not Achieved in Allotted Time";
     SetAborted (Some {| position := 100.0%float; effort := 10.0%float;
                         stalled := false; reached_goal := false |})].
Proof. repeat split; vm_compute; reflexivity. Qed.

(** ** The feedback of a suction gripper *)

(** C8 fails on the code for a suction gripper.  The gripper grips and
    [gripping()] is called, but its value is dropped (line 121):
    [reached_goal] keeps the value it had, here [False]. *)
Theorem C8_suction_reached_goal_not_assigned :
  _type (self (booted suction_world (left_config 1.0%float))) = "suction" /\
  w_gripping suction_world
    (n_gripping (calls (booted suction_world (left_config 1.0%float)))) = true /\
  verdict (_update_feedback suction_world 0.0%float
             (booted suction_world (left_config 1.0%float))) = Returns tt /\
  n_gripping (calls (res_state (_update_feedback suction_world 0.0%float
             (booted suction_world (left_config 1.0%float))))) = 1 /\
  _feedback (self (res_state (_update_feedback suction_world 0.0%float
             (booted suction_world (left_config 1.0%float)))))
  = {| position := 100.0%float; effort := 10.0%float;
       stalled := false; reached_goal := false |}.
Proof. repeat split; vm_compute; reflexivity. Qed.

(** ** A missing configuration key *)

(** C2 as stated fails on the code: with an empty configuration the lookup
    of the timeout raises [KeyError] out of [_on_gripper_action]; nothing is
    sent for the goal. *)
Lemma C2_counterexample :
  _param (self (booted push_world ∅)) !! "left_gripper_timeout" = None /\
  verdict (_on_gripper_action push_world 5 close_goal (booted push_world ∅))
    = Raises (KeyError "left_gripper_timeout") /\
  trace (res_state (_on_gripper_action push_world 5 close_goal
                      (booted push_world ∅)))
    = trace (booted push_world ∅).
Proof. repeat split; vm_compute; reflexivity. Qed.

(** The statement of C2 on a configuration that lacks the velocity and the
    two forces, asked about the holding force: the key raised for is the
    velocity, the first absent one. *)
Lemma C2_missing_key_raises_witness :
  "left_gripper_holding_force"
    ∈ requested_keys (self (booted push_world partial_config)) /\
  _param (self (booted push_world partial_config))
    !! "left_gripper_holding_force" = None /\
  verdict (_on_gripper_action push_world 5 close_goal
             (booted push_world partial_config))
    = Raises (KeyError "left_gripper_velocity") /\
  exists k' st',
    k' ∈ requested_keys (self (booted push_world partial_config)) /\
    _param (self (booted push_world partial_config)) !! k' = None /\
    (exists pre post,
       requested_keys (self (booted push_world partial_config))
       = pre ++ k' :: post /\
       Forall (fun j => is_Some (_param (self (booted push_world partial_config))
                                 !! j)) pre) /\
    _on_gripper_action push_world 5 close_goal
      (booted push_world partial_config) = Raised (KeyError k') st' /\
    trace st' = trace (booted push_world partial_config)
                ++ fault_commands push_world (booted push_world partial_config) /\
    absent_keys_retained (self (booted push_world partial_config)) (self st') /\
    (_param (self (booted push_world partial_config))
       !! (_ee (self (booted push_world partial_config)) +:+ "_timeout") = None ->
     self st' = self (booted push_world partial_config)).
Proof.
  assert (Hin : "left_gripper_holding_force"
                ∈ requested_keys (self (booted push_world partial_config))).
  { vm_compute. repeat constructor. }
  assert (Hk : _param (self (booted push_world partial_config))
               !! "left_gripper_holding_force" = None).
  { vm_compute. reflexivity. }
  split; [exact Hin|]. split; [exact Hk|].
  split; [vm_compute; reflexivity|].
  exact (C2_missing_key_raises push_world 5 close_goal
           (booted push_world partial_config) "left_gripper_holding_force"
           Hin Hk).
Defined.

(** ** Effort resolution on a constructed server *)

(** The statement of C3 on a constructed server, for the effort 0.00005. *)
Lemma C3_effort_resolution_witness :
  _default_effort (self (booted push_world (left_config 5.0%float)))
    = 40.0%float /\
  (PrimFloat.abs 0.00005 <? 0.0001)%float = true /\
  effective_effort (self (booted push_world (left_config 5.0%float)))
    0.00005%float = 40.0%float.
Proof.
  assert (Hd : _default_effort (self (booted push_world (left_config 5.0%float)))
               = 40.0%float).
  { vm_compute. reflexivity. }
  assert (He : (PrimFloat.abs 0.00005 <? 0.0001)%float = true).
  { vm_compute. reflexivity. }
  split; [exact Hd|]. split; [exact He|].
  destruct (C3_effort_resolution
              (self (booted push_world (left_config 5.0%float)))
              0.00005%float Hd) as (Hsmall & _).
  exact (Hsmall He).
Defined.

(** ** A push converges, wherever the position is *)

(** The statement of C4 on a gripper that pushes with force 50.0 against a
    threshold of 30.0, 100.0 away from the target. *)
Lemma C4_electric_convergence_witness :
  _type (self (at_loop_entry push_world (left_config 5.0%float)))
    = "electric" /\
  keeps_going push_world 0.0%float
    (at_loop_entry push_world (left_config 5.0%float)) = true /\
  (PrimFloat.abs (100.0 - 0.0) <? 5.0)%float = false /\
  exists st2,
    while_loop push_world 1 0.0%float 0.0%float 20.0%float
      (at_loop_entry push_world (left_config 5.0%float)) = Ok LoopReturn st2 /\
    result_message (self st2)
    = {| position := 100.0%float; effort := 50.0%float;
         stalled := true; reached_goal := false |}.
Proof.
  assert (Hty : _type (self (at_loop_entry push_world (left_config 5.0%float)))
                = "electric") by (vm_compute; reflexivity).
  assert (Hgo : keeps_going push_world 0.0%float
                  (at_loop_entry push_world (left_config 5.0%float)) = true)
    by (vm_compute; reflexivity).
  assert (H1 : w_parameters push_world
                 (n_parameters
                    (calls (at_loop_entry push_world (left_config 5.0%float))))
               !! "moving_force" = Some 30.0%float)
    by (vm_compute; reflexivity).
  assert (H2 : w_parameters push_world
                 (S (n_parameters
                    (calls (at_loop_entry push_world (left_config 5.0%float)))))
               !! "moving_force" = Some 30.0%float)
    by (vm_compute; reflexivity).
  split; [exact Hty|]. split; [exact Hgo|].
  split; [vm_compute; reflexivity|].
  destruct (C4_electric_convergence push_world 0 0.0%float 0.0%float
              20.0%float 30.0%float 30.0%float
              (at_loop_entry push_world (left_config 5.0%float))
              Hty Hgo H1 H2) as (_ & _ & Hforce & Hloop).
  assert (Hc : (30.0 <? 50.0)%float = true) by (vm_compute; reflexivity).
  destruct (Hloop (Hforce Hc)) as (Hrun & Hfb & Hres).
  eexists. split; [exact Hrun|].
  rewrite Hres, Hfb. vm_compute. reflexivity.
Defined.

(** ** A preempted tick *)

(** The statement of C5 on the first tick of a preempted goal. *)
Lemma C5_preempt_stops_once_witness :
  w_preempt preempt_world
    (n_preempt (calls (at_loop_entry preempt_world (left_config 5.0%float))))
    = true /\
  count is_stop
    (trace (res_state
       (loop_body preempt_world 0.0%float 20.0%float
          (at_loop_entry preempt_world (left_config 5.0%float)))))
  = S (count is_stop
         (trace (at_loop_entry preempt_world (left_config 5.0%float)))) /\
  verdict (loop_body preempt_world 0.0%float 20.0%float
             (at_loop_entry preempt_world (left_config 5.0%float)))
  = Returns true /\
  _type (self (at_loop_entry preempt_world (left_config 5.0%float)))
    = "electric" /\
  converged preempt_world 0.0%float 30.0%float
    (updated preempt_world 0.0%float 30.0%float
       (polled preempt_world
          (at_loop_entry preempt_world (left_config 5.0%float)))) = true /\
  loop_body preempt_world 0.0%float 20.0%float
    (at_loop_entry preempt_world (left_config 5.0%float))
  = Ok true
      (send [SetSucceeded
               (snapshot preempt_world 0.0%float 30.0%float
                  (polled preempt_world
                     (at_loop_entry preempt_world (left_config 5.0%float))))]
         (checked preempt_world 30.0%float
            (updated preempt_world 0.0%float 30.0%float
               (polled preempt_world
                  (at_loop_entry preempt_world (left_config 5.0%float)))))).
Proof.
  assert (Hp : w_preempt preempt_world
                 (n_preempt
                    (calls (at_loop_entry preempt_world (left_config 5.0%float))))
               = true) by reflexivity.
  split; [exact Hp|].
  destruct (C5_preempt_stops_once preempt_world 0.0%float 20.0%float
              (at_loop_entry preempt_world (left_config 5.0%float)) Hp)
    as (_ & _ & _ & Hstop & _ & Hv & _ & Hel & _).
  split; [exact Hstop|].
  split; [rewrite Hv; vm_compute; reflexivity|].
  assert (Hty : _type (self (at_loop_entry preempt_world
                               (left_config 5.0%float))) = "electric")
    by (vm_compute; reflexivity).
  assert (Hc : converged preempt_world 0.0%float 30.0%float
                 (updated preempt_world 0.0%float 30.0%float
                    (polled preempt_world
                       (at_loop_entry preempt_world (left_config 5.0%float))))
               = true) by (vm_compute; reflexivity).
  split; [exact Hty|]. split; [exact Hc|].
  rewrite (Hel 30.0%float 30.0%float Hty) by (vm_compute; reflexivity).
  rewrite Hc. reflexivity.
Defined.

(** ** A negative timeout *)


(** ** A timeout *)

(** The statement of C7 with the timeout 1.0 and a stuck gripper: the first
    clock reading of the loop is 2.0. *)
Lemma C7_timeout_aborts_with_fresh_feedback_witness :
  before_loop stuck_world close_goal (booted stuck_world (left_config 1.0%float))
  = Ok (0.0%float, 40.0%float, 20.0%float, 0.0%float)
       (at_loop_entry stuck_world (left_config 1.0%float)) /\
  while_loop stuck_world 1 0.0%float 0.0%float 20.0%float
    (at_loop_entry stuck_world (left_config 1.0%float))
  = Ok LoopCondFalse (clocked (at_loop_entry stuck_world (left_config 1.0%float))) /\
  _on_gripper_action stuck_world 1 close_goal
    (booted stuck_world (left_config 1.0%float))
  = Ok tt
      (send [SetAborted
               (Some (snapshot stuck_world 0.0%float 30.0%float
                        (clocked (at_loop_entry stuck_world
                                    (left_config 1.0%float)))))]
         (updated stuck_world 0.0%float 30.0%float
            (send [timeout_log (clocked (at_loop_entry stuck_world
                                           (left_config 1.0%float)))]
               (clocked (at_loop_entry stuck_world (left_config 1.0%float)))))) /\
  snapshot stuck_world 0.0%float 30.0%float
    (clocked (at_loop_entry stuck_world (left_config 1.0%float)))
  = {| position := 100.0%float; effort := 10.0%float;
       stalled := false; reached_goal := false |}.
Proof.
  assert (Hb : before_loop stuck_world close_goal
                 (booted stuck_world (left_config 1.0%float))
               = Ok (0.0%float, 40.0%float, 20.0%float, 0.0%float)
                    (at_loop_entry stuck_world (left_config 1.0%float)))
    by (vm_compute; reflexivity).
  assert (Hl : while_loop stuck_world 1 0.0%float 0.0%float 20.0%float
                 (at_loop_entry stuck_world (left_config 1.0%float))
               = Ok LoopCondFalse
                   (clocked (at_loop_entry stuck_world (left_config 1.0%float))))
    by (vm_compute; reflexivity).
  assert (Hmf : w_parameters stuck_world
                  (n_parameters
                     (calls (clocked (at_loop_entry stuck_world
                                        (left_config 1.0%float)))))
                !! "moving_force" = Some 30.0%float)
    by (vm_compute; reflexivity).
  split; [exact Hb|]. split; [exact Hl|].
  destruct (C7_timeout_aborts_with_fresh_feedback stuck_world 1 close_goal
              0.0%float 40.0%float 20.0%float 0.0%float 30.0%float
              (booted stuck_world (left_config 1.0%float))
              (at_loop_entry stuck_world (left_config 1.0%float))
              (clocked (at_loop_entry stuck_world (left_config 1.0%float)))
              Hb Hl Hmf) as (_ & Hrun & _).
  split; [exact Hrun|].
  vm_compute. reflexivity.
Defined.

(** ** Two feedback updates in a row *)

(** The statement of C9 on a gripper at rest. *)
Lemma C9_feedback_idempotent_witness :
  (forall i, w_position push_world i = 100.0%float) /\
  (forall i, w_force push_world i = 50.0%float) /\
  (forall i, w_parameters push_world i = electric_parameters) /\
  electric_parameters !! "moving_force" = Some 30.0%float /\
  exists st1 st2,
    _update_feedback push_world 0.0%float
      (booted push_world (left_config 5.0%float)) = Ok tt st1 /\
    _update_feedback push_world 0.0%float st1 = Ok tt st2 /\
    _feedback (self st2) = _feedback (self st1).
Proof.
  assert (Hp : forall i, w_position push_world i = 100.0%float)
    by (intros i; reflexivity).
  assert (Hf : forall i, w_force push_world i = 50.0%float)
    by (intros i; reflexivity).
  assert (Hps : forall i, w_parameters push_world i = electric_parameters)
    by (intros i; reflexivity).
  assert (Hmf : electric_parameters !! "moving_force" = Some 30.0%float)
    by (vm_compute; reflexivity).
  split; [exact Hp|]. split; [exact Hf|]. split; [exact Hps|].
  split; [exact Hmf|].
  destruct (C9_feedback_idempotent push_world 0.0%float 100.0%float 50.0%float
              30.0%float electric_parameters
              (booted push_world (left_config 5.0%float)) Hp Hf Hps Hmf)
    as (st1 & st2 & H1 & H2 & H3 & _).
  exists st1, st2. split; [exact H1|]. split; [exact H2|exact H3].
Defined.

(** ** A suction gripper times out *)



(** * The further properties on the test benches *)

(** X2 on a driver without parameters, and on a complete one. *)
Lemma X2_constructor_outcome_witness :
  verdict (new_server unconfigured_world "left" ∅)
    = Raises (KeyError "dead_zone") /\
  (exists k, KeyError "dead_zone" = KeyError k /\ k ∈ init_keys /\
             w_parameters unconfigured_world 0 !! k = None) /\
  verdict (new_server push_world "left" ∅) = Returns tt.
Proof.
  assert (Hr : verdict (new_server unconfigured_world "left" ∅)
               = Raises (KeyError "dead_zone")) by (vm_compute; reflexivity).
  split; [exact Hr|].
  destruct (X2_constructor_outcome unconfigured_world "left" ∅)
    as (_ & Hraise & _).
  split; [exact (proj2 (Hraise _ Hr))|].
  destruct (X2_constructor_outcome push_world "left" ∅) as (Hiff & _).
  apply Hiff. right. intros k Hk. unfold init_keys in Hk.
  rewrite !elem_of_cons, elem_of_nil in Hk.
  destruct Hk as [->|[->|[->|[->|[]]]]]; eexists; vm_compute; reflexivity.
Defined.

(** X3 on a constructed server, for the effort -1.0. *)
Lemma X3_effective_effort_range_witness :
  _default_effort (self (booted push_world (left_config 5.0%float)))
    = 40.0%float /\
  (effective_effort (self (booted push_world (left_config 5.0%float)))
     (-1.0)%float =? -1.0)%float = false /\
  effective_effort (self (booted push_world (left_config 5.0%float)))
    (-1.0)%float = 100.0%float.
Proof.
  assert (Hd : _default_effort (self (booted push_world (left_config 5.0%float)))
               = 40.0%float) by (vm_compute; reflexivity).
  split; [exact Hd|].
  destruct (X3_effective_effort_range
              (self (booted push_world (left_config 5.0%float)))
              (-1.0)%float Hd) as (Hne & _).
  split; [exact Hne|]. vm_compute. reflexivity.
Defined.

(** X4 on a constructed electric server with a complete configuration. *)
Lemma X4_resolution_agrees_witness :
  verdict (_get_gripper_parameters (booted push_world (left_config 5.0%float)))
    = Returns tt /\
  _dead_band (self (res_state (_get_gripper_parameters
                                 (booted push_world (left_config 5.0%float)))))
    = 5.0%float /\
  exists p : gmap string float,
    trace (res_state (_get_gripper_parameters
                        (booted push_world (left_config 5.0%float))))
    = trace (booted push_world (left_config 5.0%float)) ++ [SetParameters p] /\
    p !! "dead_zone" = Some 5.0%float.
Proof.
  assert (Hok : _get_gripper_parameters
                  (booted push_world (left_config 5.0%float))
                = Ok tt (res_state (_get_gripper_parameters
                           (booted push_world (left_config 5.0%float)))))
    by (vm_compute; reflexivity).
  assert (Hty : _type (self (booted push_world (left_config 5.0%float)))
                = "electric") by (vm_compute; reflexivity).
  split; [vm_compute; reflexivity|].
  assert (Hdb : _dead_band (self (res_state (_get_gripper_parameters
                   (booted push_world (left_config 5.0%float)))))
                = 5.0%float) by (vm_compute; reflexivity).
  split; [exact Hdb|].
  destruct (X4_resolution_agrees _ _ Hok) as (_ & _ & He & _).
  destruct (He Hty) as (_ & _ & _ & _ & p & Htr & Hdz & _).
  exists p. split; [exact Htr|]. rewrite Hdz, Hdb. reflexivity.
Defined.

(** X5 on a configuration that lacks the velocity: the timeout and the dead
    band are already the configured 7.0 and 3.0. *)
Lemma X5_failed_resolution_is_partial_witness :
  _get_gripper_parameters (booted push_world partial_config)
  = Raised (KeyError "left_gripper_velocity")
      (res_state (_get_gripper_parameters (booted push_world partial_config))) /\
  _timeout (self (res_state (_get_gripper_parameters
                               (booted push_world partial_config))))
    = 7.0%float /\
  _dead_band (self (res_state (_get_gripper_parameters
                                 (booted push_world partial_config))))
    = 3.0%float /\
  _timeout (self (booted push_world partial_config)) = 5.0%float /\
  _dead_band (self (booted push_world partial_config)) = 5.0%float.
Proof.
  assert (Hr : _get_gripper_parameters (booted push_world partial_config)
               = Raised (KeyError "left_gripper_velocity")
                   (res_state (_get_gripper_parameters
                                 (booted push_world partial_config))))
    by (vm_compute; reflexivity).
  split; [exact Hr|].
  destruct (X5_failed_resolution_is_partial _ _ _ Hr)
    as (_ & _ & _ & Hto & Hdb & _).
  split; [apply Hto; vm_compute; reflexivity|].
  split; [apply (Hdb 7.0%float); vm_compute; reflexivity|].
  split; vm_compute; reflexivity.
Defined.

(** X6 on a constructed electric server with a complete configuration. *)
Lemma X6_resolution_idempotent_witness :
  verdict (_get_gripper_parameters (booted push_world (left_config 5.0%float)))
    = Returns tt /\
  exists st2,
    _get_gripper_parameters
      (res_state (_get_gripper_parameters
                    (booted push_world (left_config 5.0%float))))
    = Ok tt st2 /\
    self st2 = self (res_state (_get_gripper_parameters
                                  (booted push_world (left_config 5.0%float)))).
Proof.
  assert (Hok : _get_gripper_parameters
                  (booted push_world (left_config 5.0%float))
                = Ok tt (res_state (_get_gripper_parameters
                           (booted push_world (left_config 5.0%float)))))
    by (vm_compute; reflexivity).
  split; [vm_compute; reflexivity|].
  destruct (X6_resolution_idempotent _ _ Hok) as (st2 & H2 & Hs & _).
  exists st2. split; assumption.
Defined.

(** X8 on a goal that is never preempted. *)
Lemma X8_no_stop_without_preempt_witness :
  (forall i, w_preempt stuck_world i = false) /\
  count is_stop
    (trace (res_state (_on_gripper_action stuck_world 4 close_goal
                         (booted stuck_world (left_config 5.0%float)))))
  = count is_stop (trace (booted stuck_world (left_config 5.0%float))).
Proof.
  assert (Hp : forall i, w_preempt stuck_world i = false)
    by (intros i; reflexivity).
  split; [exact Hp|].
  exact (X8_no_stop_without_preempt stuck_world 4 close_goal
           (booted stuck_world (left_config 5.0%float)) Hp).
Defined.

(** X9 on a gripper in error that pushes against an object. *)
Lemma X9_fault_reports_twice_witness :
  w_error fault_world
    (n_error (calls (booted fault_world (left_config 5.0%float)))) = true /\
  _on_gripper_action fault_world 1 close_goal
    (booted fault_world (left_config 5.0%float))
  = Ok tt (res_state (_on_gripper_action fault_world 1 close_goal
                        (booted fault_world (left_config 5.0%float)))) /\
  count is_succeeded
    (trace (res_state (_on_gripper_action fault_world 1 close_goal
                         (booted fault_world (left_config 5.0%float)))))
  + count is_aborted
      (trace (res_state (_on_gripper_action fault_world 1 close_goal
                           (booted fault_world (left_config 5.0%float)))))
  = count is_succeeded (trace (booted fault_world (left_config 5.0%float)))
    + count is_aborted (trace (booted fault_world (left_config 5.0%float)))
    + 2.
Proof.
  assert (He : w_error fault_world
                 (n_error (calls (booted fault_world (left_config 5.0%float))))
               = true) by (vm_compute; reflexivity).
  assert (Hrun : _on_gripper_action fault_world 1 close_goal
                   (booted fault_world (left_config 5.0%float))
                 = Ok tt (res_state (_on_gripper_action fault_world 1 close_goal
                            (booted fault_world (left_config 5.0%float)))))
    by (vm_compute; reflexivity).
  split; [exact He|]. split; [exact Hrun|].
  destruct (X9_fault_reports_twice fault_world 1 close_goal _ _ He Hrun)
    as (evs & last & _ & _ & _ & Hcount).
  exact Hcount.
Defined.

(** The statement on one outcome per goal, on a healthy gripper that
    pushes against an object. *)
Lemma one_outcome_without_fault_witness :
  w_error push_world
    (n_error (calls (booted push_world (left_config 5.0%float)))) = false /\
  _on_gripper_action push_world 1 close_goal
    (booted push_world (left_config 5.0%float))
  = Ok tt (res_state (_on_gripper_action push_world 1 close_goal
                        (booted push_world (left_config 5.0%float)))) /\
  exists evs,
    trace (res_state (_on_gripper_action push_world 1 close_goal
                        (booted push_world (left_config 5.0%float))))
    = trace (booted push_world (left_config 5.0%float)) ++ evs /\
    count is_succeeded evs + count is_aborted evs = 1.
Proof.
  assert (He : w_error push_world
                 (n_error (calls (booted push_world (left_config 5.0%float))))
               = false) by (vm_compute; reflexivity).
  assert (Hrun : _on_gripper_action push_world 1 close_goal
                   (booted push_world (left_config 5.0%float))
                 = Ok tt (res_state (_on_gripper_action push_world 1 close_goal
                            (booted push_world (left_config 5.0%float)))))
    by (vm_compute; reflexivity).
  split; [exact He|]. split; [exact Hrun|].
  exact (one_outcome_without_fault push_world 1 close_goal _ _ He Hrun).
Defined.

(** X10 on the first tick of a gripper that pushes against an object. *)
Lemma X10_result_says_why_witness :
  _type (self (at_loop_entry push_world (left_config 5.0%float)))
    = "electric" /\
  verdict (rest_of_tick push_world 0.0%float 20.0%float
             (at_loop_entry push_world (left_config 5.0%float)))
    = Returns true /\
  match rest_of_tick push_world 0.0%float 20.0%float
          (at_loop_entry push_world (left_config 5.0%float)) with
  | Ok true st' =>
      stalled (result_message (self st'))
      || reached_goal (result_message (self st')) = true /\
      trace st' = trace (at_loop_entry push_world (left_config 5.0%float))
                  ++ [SetSucceeded (result_message (self st'))]
  | Ok false st' =>
      stalled (_feedback (self st')) = false /\
      reached_goal (_feedback (self st')) = false /\
      trace st' = trace (at_loop_entry push_world (left_config 5.0%float))
                  ++ tick_commands 0.0%float 20.0%float (_feedback (self st'))
  | Raised _ _ | Running _ => False
  end.
Proof.
  assert (Hty : _type (self (at_loop_entry push_world (left_config 5.0%float)))
                = "electric") by (vm_compute; reflexivity).
  split; [exact Hty|]. split; [vm_compute; reflexivity|].
  apply (X10_result_says_why push_world 0.0%float 20.0%float 30.0%float
           (at_loop_entry push_world (left_config 5.0%float)) Hty);
    vm_compute; reflexivity.
Defined.

(** X11 on a constructed electric server with a complete configuration. *)
Lemma X11_electric_setup_witness :
  _type (self (booted push_world (left_config 5.0%float))) = "electric" /\
  exists st1,
    before_loop push_world close_goal (booted push_world (left_config 5.0%float))
    = Ok (0.0%float, 40.0%float, 20.0%float, 0.0%float) st1 /\
    trace st1
    = [RospySleep 0.25%float; ServerStart;
       SetParameters (param_update 5.0%float 50.0%float 30.0%float 30.0%float);
       SetMovingForce 40.0%float] /\
    _moving_force (self st1) = 30.0%float.
Proof.
  assert (Hty : _type (self (booted push_world (left_config 5.0%float)))
                = "electric") by (vm_compute; reflexivity).
  split; [exact Hty|].
  destruct (X11_electric_setup push_world close_goal
              (booted push_world (left_config 5.0%float))
              5.0%float 5.0%float 50.0%float 30.0%float 30.0%float 30.0%float
              Hty)
    as (st1 & Hb & Htr & _ & _ & _ & Hm & _);
    try (vm_compute; reflexivity).
  exists st1. split; [exact Hb|]. split; [|exact Hm].
  rewrite Htr. vm_compute. reflexivity.
Defined.

(** X12 on a gripper stuck 100.0 away from the target with a timeout of
    1.0: the first clock reading of the loop is 2.0. *)
Lemma X12_electric_goal_times_out_witness :
  _type (self (booted stuck_world (left_config 1.0%float))) = "electric" /\
  (forall i, (30.0 <? w_force stuck_world i)%float = false) /\
  (forall i, (PrimFloat.abs (w_position stuck_world i
                             - cmd_position (command close_goal))
                <? 5.0)%float = false) /\
  exists st3 r,
    _on_gripper_action stuck_world 1 close_goal
      (booted stuck_world (left_config 1.0%float))
    = Ok tt (send [SetAborted (Some r)] st3) /\
    stalled r = false /\ reached_goal r = false.
Proof.
  assert (Hty : _type (self (booted stuck_world (left_config 1.0%float)))
                = "electric") by (vm_compute; reflexivity).
  assert (Hf : forall i, (30.0 <? w_force stuck_world i)%float = false)
    by (intros i; vm_compute; reflexivity).
  assert (Hp : forall i, (PrimFloat.abs (w_position stuck_world i
                                         - cmd_position (command close_goal))
                          <? 5.0)%float = false)
    by (intros i; vm_compute; reflexivity).
  split; [exact Hty|]. split; [exact Hf|]. split; [exact Hp|].
  destruct (X12_electric_goal_times_out stuck_world close_goal
              (booted stuck_world (left_config 1.0%float)) 0
              1.0%float 5.0%float 50.0%float 30.0%float 30.0%float 30.0%float
              Hty)
    as (st3 & r & Hrun & _ & Hs & Hr & _);
    try (vm_compute; reflexivity); try assumption.
  exists st3, r. repeat split; assumption.
Defined.

(** X13 on a suction gripper with the timeout -1.0. *)
Lemma X13_unbounded_goal_never_ends_witness :
  _type (self (booted suction_world (left_config (-1.0)%float))) <> "electric" /\
  (-1.0 <? 0.0)%float = true /\
  (forall i, is_Some (w_parameters suction_world i !! "moving_force")) /\
  verdict (_on_gripper_action suction_world 50 close_goal
             (booted suction_world (left_config (-1.0)%float)))
  = StillRunning.
Proof.
  assert (Hty : _type (self (booted suction_world (left_config (-1.0)%float)))
                <> "electric") by (vm_compute; discriminate).
  assert (Hneg : (-1.0 <? 0.0)%float = true) by (vm_compute; reflexivity).
  assert (Hpar : forall i,
             is_Some (w_parameters suction_world i !! "moving_force")).
  { intros i. exists 30.0%float. vm_compute. reflexivity. }
  split; [exact Hty|]. split; [exact Hneg|]. split; [exact Hpar|].
  assert (Hcfg : _param (self (booted suction_world (left_config (-1.0)%float)))
                 !! (_ee (self (booted suction_world
                                  (left_config (-1.0)%float))) +:+ "_timeout")
                 = Some (-1.0)%float) by (vm_compute; reflexivity).
  exact (proj1 (X13_unbounded_goal_never_ends suction_world close_goal
                  (booted suction_world (left_config (-1.0)%float))
                  (-1.0)%float Hty Hcfg Hneg Hpar 50)).
Defined.

(** X15 on a driver that stops reporting its parameters after the first
    feedback update. *)
Lemma X15_failed_update_shows_in_result_witness :
  _result (self (res_state (_update_feedback fading_world 0.0%float
                              (booted fading_world (left_config 5.0%float)))))
    = SharesFeedback /\
  w_parameters fading_world
    (n_parameters (calls (res_state (_update_feedback fading_world 0.0%float
                            (booted fading_world (left_config 5.0%float))))))
    !! "moving_force" = None /\
  exists st',
    _update_feedback fading_world 1.0%float
      (res_state (_update_feedback fading_world 0.0%float
                    (booted fading_world (left_config 5.0%float))))
    = Raised (KeyError "moving_force") st' /\
    position (result_message (self st')) = 100.0%float.
Proof.
  assert (Hres : _result (self (res_state (_update_feedback fading_world
                    0.0%float (booted fading_world (left_config 5.0%float)))))
                 = SharesFeedback) by (vm_compute; reflexivity).
  assert (Hmf : w_parameters fading_world
                  (n_parameters (calls (res_state (_update_feedback
                     fading_world 0.0%float
                     (booted fading_world (left_config 5.0%float))))))
                !! "moving_force" = None) by (vm_compute; reflexivity).
  split; [exact Hres|]. split; [exact Hmf|].
  destruct (X15_failed_update_shows_in_result fading_world 1.0%float _
              Hres Hmf) as (st' & Hr & Hp & _).
  exists st'. split; [exact Hr|]. rewrite Hp. vm_compute. reflexivity.
Defined.

(** X17 on a configuration whose timeout is NaN. *)
Lemma X17_nan_timeout_aborts_at_once_witness :
  _param (self (booted push_world (left_config nan)))
    !! (_ee (self (booted push_world (left_config nan))) +:+ "_timeout")
    = Some nan /\
  before_loop push_world close_goal (booted push_world (left_config nan))
  = Ok (0.0%float, 40.0%float, 20.0%float, 0.0%float)
       (at_loop_entry push_world (left_config nan)) /\
  verdict (_on_gripper_action push_world 3 close_goal
             (booted push_world (left_config nan))) = Returns tt /\
  count is_publish
    (trace (res_state (_on_gripper_action push_world 3 close_goal
                         (booted push_world (left_config nan))))) = 0.
Proof.
  assert (Hcfg : _param (self (booted push_world (left_config nan)))
                 !! (_ee (self (booted push_world (left_config nan)))
                     +:+ "_timeout") = Some nan) by (vm_compute; reflexivity).
  assert (Hb : before_loop push_world close_goal
                 (booted push_world (left_config nan))
               = Ok (0.0%float, 40.0%float, 20.0%float, 0.0%float)
                    (at_loop_entry push_world (left_config nan)))
    by (vm_compute; reflexivity).
  assert (Hmf : w_parameters push_world
                  (n_parameters (calls (at_loop_entry push_world
                                          (left_config nan))))
                !! "moving_force" = Some 30.0%float)
    by (vm_compute; reflexivity).
  split; [exact Hcfg|]. split; [exact Hb|].
  destruct (X17_nan_timeout_aborts_at_once push_world 2 close_goal
              0.0%float 40.0%float 20.0%float 0.0%float 30.0%float _ _
              Hcfg Hb Hmf) as (Hrun & _).
  rewrite Hrun. split; [reflexivity|]. vm_compute. reflexivity.
Defined.
